(** * GenericType: hook factories, naming resolver and framework adapters

    A shallow embedding of the TypeScript sources
    - [Source/v3/inference.ts]  (createInferredHook, kebabCase,
      extractHookName, createFrameworkPlugin, inferHookContext),
    - the enhanced hook factory (createEnhancedHookFactory / useEnhancedHook),
    - the framework hook factory (createHookFactory / useReactive),
    and the properties of the specification that concern them.

    Modelling conventions.
    - A JavaScript string is a [string], a sequence of code units (8 bits
      wide here).  The only patterns the sources use are the class [A-Z]
      and literal ASCII words, so a code unit outside ASCII behaves like
      any other character that is not a capital: it is copied unchanged.
    - A JavaScript object is a finite map from property names to values
      ([gmap string JsVal]); an absent property is [None], a property
      holding [undefined] is [Some VUndef].  Object spread is map union,
      later properties winning.
    - Function values are closures named by a constructor of [Closure];
      functions written in the sources have their own constructor and a
      definition, functions supplied by the caller are opaque.
    - The factories are programs over the calls they make to their
      environment (the ComponentSystem, the framework libraries,
      [crypto]); what is proved of a factory holds for every environment.
      The class [ComponentSystem] is imported by the sources; where a
      property needs its behaviour, module [Core] models it from the
      specification. *)

From Stdlib Require Import ZArith String Ascii Bool Lia.
From stdpp Require Import gmap strings list fin_maps pretty.

#[local] Set Warnings "-register-all".

(** ** Strings *)

Module Str.

(** The character class [A-Z] of the regular expressions. *)
Definition isAZ (c : ascii) : bool :=
  (65 <=? nat_of_ascii c)%nat && (nat_of_ascii c <=? 90)%nat.

(** [letter.toLowerCase()] on one code unit. *)
Definition toLowerCase (c : ascii) : ascii :=
  if isAZ c then ascii_of_nat (nat_of_ascii c + 32) else c.

(** [s.startsWith(p)] *)
Fixpoint startsWith (p s : string) : bool :=
  match p, s with
  | EmptyString, _ => true
  | String a p', String b s' => Ascii.eqb a b && startsWith p' s'
  | String _ _, EmptyString => false
  end.

(** [s.includes(needle)]: some position of [s] starts with [needle]. *)
Fixpoint includes (needle s : string) : bool :=
  startsWith needle s ||
  match s with
  | EmptyString => false
  | String _ r => includes needle r
  end.

(** [s.endsWith(p)] *)
Fixpoint endsWith (p s : string) : bool :=
  String.eqb s p ||
  match s with
  | EmptyString => false
  | String _ r => endsWith p r
  end.

(** No code unit of the string is in [A-Z]. *)
Fixpoint noUpper (s : string) : bool :=
  match s with
  | EmptyString => true
  | String c r => negb (isAZ c) && noUpper r
  end.

(** The number of code units in [A-Z]. *)
Fixpoint countUpper (s : string) : nat :=
  match s with
  | EmptyString => 0
  | String c r => (if isAZ c then 1 else 0) + countUpper r
  end.

(** The class [a-z], and [c.toUpperCase()] on one code unit. *)
Definition isaz (c : ascii) : bool :=
  (97 <=? nat_of_ascii c)%nat && (nat_of_ascii c <=? 122)%nat.

Definition toUpperCase (c : ascii) : ascii :=
  if isaz c then ascii_of_nat (nat_of_ascii c - 32) else c.

(** The number of code units outside [a-z]. *)
Fixpoint countNotLower (s : string) : nat :=
  match s with
  | EmptyString => 0
  | String c r => (if isaz c then 0 else 1) + countNotLower r
  end.

(** Every code unit is an ASCII letter; every code unit is ASCII. *)
Fixpoint allLetters (s : string) : bool :=
  match s with
  | EmptyString => true
  | String c r => (isAZ c || isaz c) && allLetters r
  end.

Fixpoint allAscii (s : string) : bool :=
  match s with
  | EmptyString => true
  | String c r => (nat_of_ascii c <? 128)%nat && allAscii r
  end.

(** No code unit is a hyphen. *)
Fixpoint noHyphen (s : string) : bool :=
  match s with
  | EmptyString => true
  | String c r => negb (Ascii.eqb c "-") && noHyphen r
  end.

(** Specification-side notions: prefix, suffix and substring as
    decompositions of the string. *)
Definition hasPrefix (p s : string) : Prop := exists r, s = p +:+ r.
Definition hasSuffix (p s : string) : Prop := exists r, s = r +:+ p.
Definition contains (n s : string) : Prop := exists a b, s = a +:+ n +:+ b.

End Str.

(** ** The naming resolver ([Source/v3/inference.ts], lines 84-90) *)

(** [str.replace(/[A-Z]/g, (letter) => `-${letter.toLowerCase()}`)] *)
Fixpoint kebabCase (str : string) : string :=
  match str with
  | EmptyString => EmptyString
  | String letter rest =>
      if Str.isAZ letter
      then String "-" (String (Str.toLowerCase letter) (kebabCase rest))
      else String letter (kebabCase rest)
  end.

(** [name.replace(/^use/, "")]: the pattern is anchored at the start. *)
Definition replace_use_start (name : string) : string :=
  match name with
  | String "u" (String "s" (String "e" rest)) => rest
  | _ => name
  end.

(** [name.replace(/Hook$/, "")]: the matcher tries every start position from
    the left; the pattern matches at a position when what remains of the
    input is exactly [Hook]. *)
Fixpoint replace_Hook_end (name : string) : string :=
  match name with
  | EmptyString => EmptyString
  | String c rest =>
      if String.eqb name "Hook" then EmptyString
      else String c (replace_Hook_end rest)
  end.

Definition extractHookName (name : string) : string :=
  replace_Hook_end (replace_use_start name).

(** [const reactiveId = kebabCase(extractHookName(hookName))] (line 60). *)
Definition reactiveId (hookName : string) : string :=
  kebabCase (extractHookName hookName).

(** ** The type utilities ([Source/v3/inference.ts], lines 4-10)

    The template-literal types compute on string literal types at compile
    time; each is read as the function on strings it describes.  The
    intrinsic types [Capitalize] and [Lowercase] are taken on ASCII. *)

Module Alias.

(** [Capitalize<S>]: the first character in upper case. *)
Definition Capitalize (S : string) : string :=
  match S with
  | EmptyString => EmptyString
  | String c r => String (Str.toUpperCase c) r
  end.

(** [Lowercase<S>] *)
Fixpoint Lowercase (S : string) : string :=
  match S with
  | EmptyString => EmptyString
  | String c r => String (Str.toLowerCase c) (Lowercase r)
  end.

(** [CamelToKebab<S>]: [S extends `${infer T}${infer U}`] takes the first
    character as [T]; the answer is
    [`${T extends Capitalize<T> ? "-" : ""}${Lowercase<T>}${CamelToKebab<U>}`]. *)
Fixpoint CamelToKebab (S : string) : string :=
  match S with
  | EmptyString => EmptyString
  | String T U =>
      (if String.eqb (Capitalize (String T EmptyString)) (String T EmptyString)
       then "-" else "")
      +:+ Lowercase (String T EmptyString) +:+ CamelToKebab U
  end.

(** [KebabToCamel<S>]: [S extends `${infer T}-${infer U}`] takes as [T] the
    text before the first hyphen; the answer is
    [`${T}${Capitalize<KebabToCamel<U>>}`], and [S] when there is no
    hyphen. *)
Fixpoint KebabToCamel (S : string) : string :=
  match S with
  | EmptyString => EmptyString
  | String c r =>
      if Ascii.eqb c "-" then Capitalize (KebabToCamel r)
      else String c (KebabToCamel r)
  end.

End Alias.

(** ** Framework inference ([Source/v3/inference.ts], lines 109-141) *)

(** [FrameworkContext["type"]] *)
Inductive Framework : Type := react | solid | vue.

Definition Framework_name (f : Framework) : string :=
  match f with react => "react" | solid => "solid" | vue => "vue" end.

Record HookContext : Type := mkHookContext {
  filename : string;
  imports : list string;
  framework : Framework
}.

Definition inferFrameworkFromFilename (filename : string) : Framework :=
  if Str.includes ".tsx" filename || Str.includes ".jsx" filename then react
  else if Str.includes ".solid" filename then solid
  else if Str.includes ".vue" filename then vue
  else react.

Definition inferImportsFromFramework (framework : Framework) : list string :=
  match framework with
  | react => ["useState"; "useEffect"]
  | solid => ["createSignal"; "createEffect"]
  | vue => ["ref"; "onMounted"]
  end.

Definition inferHookContext (filename : string) : HookContext :=
  let framework := inferFrameworkFromFilename filename in
  let imports := inferImportsFromFramework framework in
  {| filename := filename; framework := framework; imports := imports |}.

(** ** JavaScript values *)

(** A value is a primitive, an array, an object literal, a function, or a
    host object (a promise, a Reactive, a ComponentSystem, a framework state
    object) known only by its address.  The closures the sources create are
    constructors of [Closure] and carry their captured variables; [Extern]
    is a function that the sources do not define (an interceptor supplied by
    the caller, a setter returned by a framework library). *)
Inductive JsVal : Type :=
| VUndef
| VNull
| VBool (b : bool)
| VNum (z : Z)
| VStr (s : string)
| VArr (l : list JsVal)
| VObj (o : gmap string JsVal)
| VFun (c : Closure)
| VHost (address : nat)
with Closure : Type :=
| NamingBeforeCreate (rawName processedName kebabName : string)
| FrameworkBeforeCreate (framework : Framework)
| SetValueReact (state reactive : JsVal)
| SetValueSolid (setValue reactive : JsVal)
| SetValueVue (state reactive : JsVal)
| Extern (n : nat).

Abbreviation JsObj := (gmap string JsVal).

Module Js.

(** [o.k] on an object literal: reading a property that is absent gives
    [undefined]. *)
Definition prop (k : string) (o : JsObj) : JsVal := default VUndef (o !! k).

(** The properties copied by [...v]: those of an object literal; spreading
    [undefined] or [null] copies nothing. *)
Definition spread (v : JsVal) : JsObj :=
  match v with VObj o => o | _ => ∅ end.

(** [v.k] for a value that is an object literal, [undefined] otherwise: a
    primitive, an array or a function has no property of the names read
    here.  On [null] and [undefined] JavaScript throws instead; where the
    sources read a property of a value that can be [null], the throw is
    written out (see [Adapter.useReactive]). *)
Definition get (k : string) (v : JsVal) : JsVal := prop k (spread v).

(** ToBoolean *)
Definition truthy (v : JsVal) : bool :=
  match v with
  | VUndef | VNull => false
  | VBool b => b
  | VNum z => negb (z =? 0)%Z
  | VStr s => negb (String.eqb s "")
  | VArr _ | VObj _ | VFun _ | VHost _ => true
  end.

(** The entries of [config.meta]. *)
Definition meta (config : JsObj) : JsObj := spread (prop "meta" config).

(** [a || b] *)
Definition or (a b : JsVal) : JsVal := if truthy a then a else b.

(** A destructuring default [{ k = d } = o]: used when [o.k] is
    [undefined]. *)
Definition withDefault (d : JsVal) (v : JsVal) : JsVal :=
  match v with VUndef => d | _ => v end.

(** The string a property declared [string | undefined] holds. *)
Definition str (v : JsVal) : string :=
  match v with VStr s => s | _ => "" end.

(** [v === null], whether [v] is an object literal, and whether [v] is a
    primitive. *)
Definition isNull (v : JsVal) : bool :=
  match v with VNull => true | _ => false end.

Definition isObject (v : JsVal) : bool :=
  match v with VObj _ => true | _ => false end.

Definition primitive (v : JsVal) : bool :=
  match v with
  | VUndef | VNull | VBool _ | VNum _ | VStr _ => true
  | VArr _ | VObj _ | VFun _ | VHost _ => false
  end.

(** The text a template literal [`${v}`] puts for [v]: the string itself,
    the decimal of a number (numbers are the integers of the safe range),
    [true], [false], [null], [undefined]; an array joins the texts of its
    elements with commas, [null] and [undefined] giving nothing; an object
    without a [toString] of its own gives [[object Object]], which also
    stands here for the text of a function or of a host object. *)
Fixpoint template (v : JsVal) : string :=
  match v with
  | VUndef => "undefined"
  | VNull => "null"
  | VBool b => if b then "true" else "false"
  | VNum z => pretty z
  | VStr s => s
  | VArr l =>
      (fix join (l : list JsVal) : string :=
         match l with
         | [] => ""
         | x :: r =>
             (if isNull x || match x with VUndef => true | _ => false end
              then "" else template x)
             +:+ match r with [] => "" | _ => "," +:+ join r end
         end) l
  | VObj _ | VFun _ | VHost _ => "[object Object]"
  end.

(** The [name] properties of an array of plugin objects. *)
Definition pluginNames (plugins : JsVal) : list JsVal :=
  match plugins with
  | VArr l => map (get "name") l
  | _ => []
  end.

End Js.

(** ** Programs

    The factories call into the ComponentSystem, the framework libraries and
    the platform.  A program is the tree of these calls: each call is
    answered by the environment with a value, or it throws. *)

Inductive Error : Type :=
| TypeError (message : string)
| ReferenceError (message : string)
| PlainError (message : string)
| Rejection (reason : string).

Inductive Call : Type :=
| RandomUUID                                    (* crypto.randomUUID() *)
| NewComponentSystem (options : JsVal)          (* new ComponentSystem(o) *)
| SystemCreate (system : JsVal) (config : JsObj) (* system.create(config) *)
| UseState (initialValue : JsVal)               (* react: useState(v) *)
| CreateSignal (initialValue : JsVal)           (* solid-js: createSignal(v) *)
| VueRef (initialValue : JsVal)                 (* vue: ref(v) *)
| Await (promise : JsVal)                       (* await p *)
| ReactiveSet (r : JsVal) (newValue : JsVal)    (* r.set?.(newValue) *)
| Invoke (f : JsVal) (args : list JsVal)        (* f(...args), f external *)
| Assign (target : JsVal) (k : string) (v : JsVal). (* target.k = v *)

Inductive prog (A : Type) : Type :=
| Ret (a : A)
| Throw (e : Error)
| Do (c : Call) (k : JsVal -> prog A).

Arguments Ret {A} a.
Arguments Throw {A} e.
Arguments Do {A} c k.

Fixpoint bind {A B : Type} (p : prog A) (f : A -> prog B) : prog B :=
  match p with
  | Ret a => f a
  | Throw e => Throw e
  | Do c k => Do c (fun v => bind (k v) f)
  end.

#[global] Instance prog_ret : MRet prog := @Ret.
#[global] Instance prog_bind : MBind prog := fun A B f p => bind p f.

Definition call (c : Call) : prog JsVal := Do c Ret.

(** The environment: how each call is answered in a state of type [W]. *)
Definition Handler (W : Type) : Type := Call -> W -> (JsVal + Error) * W.

(** Running a program; a call that throws ends it (the sources have no
    [try]). *)
Fixpoint run {W A : Type} (h : Handler W) (p : prog A) (w : W)
  : (A + Error) * W :=
  match p with
  | Ret a => (inl a, w)
  | Throw e => (inr e, w)
  | Do c k =>
      match h c w with
      | (inl v, w') => run h (k v) w'
      | (inr e, w') => (inr e, w')
      end
  end.

(** The calls a run makes, in order, each with its answer. *)
Fixpoint trace {W A : Type} (h : Handler W) (p : prog A) (w : W)
  : list (Call * (JsVal + Error)) :=
  match p with
  | Ret _ | Throw _ => []
  | Do c k =>
      match h c w with
      | (inl v, w') => (c, inl v) :: trace h (k v) w'
      | (inr e, _) => [(c, inr e)]
      end
  end.

(** The configs a run passes to [system.create], in order. *)
Definition createRequests {W A : Type} (h : Handler W) (p : prog A) (w : W)
  : list JsObj :=
  omap (fun e => match e.1 with
                 | SystemCreate _ config => Some config
                 | _ => None
                 end)
       (trace h p w).

(** ** Object literals of the sources *)

Module Lit.

(** [{ ...base, k1: v1, ..., kn: vn }]: the listed properties are written
    in order over the spread object. *)
Definition over (base : JsObj) (props : list (string * JsVal)) : JsObj :=
  fold_left (fun o kv => <[kv.1 := kv.2]> o) props base.

Definition obj (props : list (string * JsVal)) : JsVal := VObj (over ∅ props).

(** [a[i]], also the i-th variable of an array destructuring. *)
Definition index (i : nat) (a : JsVal) : JsVal :=
  match a with
  | VArr l => nth i l VUndef
  | _ => VUndef
  end.

End Lit.

(** ** [Source/v3/inference.ts]: createFrameworkPlugin, createInferredHook *)

Module V3.

(** The [beforeCreate] arrow function of [createFrameworkPlugin]
    (lines 96-104). *)
Definition frameworkBeforeCreate (framework : Framework) (config : JsObj)
  : JsObj :=
  Lit.over config
    [("meta", VObj (Lit.over (Js.spread (Js.prop "meta" config))
                      [("framework", VStr (Framework_name framework))]))].

Definition createFrameworkPlugin (framework : Framework) : JsVal :=
  Lit.obj [("name", VStr (Framework_name framework +:+ "-adapter"));
           ("beforeCreate", VFun (FrameworkBeforeCreate framework))].

Definition HookContext_val (context : HookContext) : JsVal :=
  Lit.obj [("filename", VStr (filename context));
           ("framework", VStr (Framework_name (framework context)));
           ("imports", VArr (map VStr (imports context)))].

(** The object literal passed to [system.create] (lines 68-73); [options]
    is spread last. *)
Definition createConfig (reactiveId : string) (initialValue : JsVal)
    (options : JsObj) : JsObj :=
  options ∪
  Lit.over ∅
    [("id", VStr reactiveId);
     ("type", Js.or (Js.prop "type" options) (VStr "state"));
     ("initialValue", initialValue)].

(** [createInferredHook(name, context)(initialValue, options)] *)
Definition useInferredHook (name : string) (context : HookContext)
    (initialValue : JsVal) (options : JsObj) : prog JsVal :=
  let hookName := name in
  let framework := framework context in
  let reactiveId := kebabCase (extractHookName hookName) in
  system ← call (NewComponentSystem
                   (Lit.obj [("plugins",
                              VArr [createFrameworkPlugin framework])]));
  reactive ← call (SystemCreate system
                     (createConfig reactiveId initialValue options));
  mret (Lit.obj [("reactive", reactive);
                 ("framework", VStr (Framework_name framework));
                 ("context", HookContext_val context)]).

(** The example components (lines 145-177): each infers its context from a
    file name and calls its hook with the initial value 0. *)
Definition Counter : prog JsVal :=
  let context := inferHookContext "Counter.tsx" in
  let useCounter := useInferredHook "useCounter" context in
  result ← useCounter (VNum 0) ∅;
  mret (Js.get "reactive" result).

Definition SolidCounter : prog JsVal :=
  let context := inferHookContext "Counter.solid.tsx" in
  let useCounter := useInferredHook "useCounterHook" context in
  result ← useCounter (VNum 0) ∅;
  mret (Js.get "reactive" result).

(** [VueCounter.setup()] *)
Definition VueCounter_setup : prog JsVal :=
  let context := inferHookContext "Counter.vue" in
  let useCounter := useInferredHook "useCounterState" context in
  result ← useCounter (VNum 0) ∅;
  mret (Lit.obj [("counter", Js.get "reactive" result)]).

End V3.

(** ** The enhanced hook factory (createEnhancedHookFactory) *)

Module Enhanced.

(** [type ExtractHookName<T>]: [T extends `use${infer Name}` ? Name :
    T extends `${infer Name}Hook` ? Name : T], read as the function on
    strings the alias describes: the prefix is tried first, the suffix only
    when there is no prefix.  The alias exists at compile time only. *)
Definition ExtractHookName (T : string) : string :=
  match T with
  | String "u" (String "s" (String "e" Name)) => Name
  | _ => replace_Hook_end T
  end.

(** [hookNameOrConfig: Name | EnhancedHookConfig<T>] *)
Inductive NameOrConfig : Type :=
| ByName (name : string)
| ByConfig (config : JsObj).

(** The [beforeCreate] arrow function of [namingPlugin] (lines 58-66). *)
Definition namingBeforeCreate (rawName processedName kebabName : string)
    (originalConfig : JsObj) : JsObj :=
  Lit.over originalConfig
    [("meta", VObj (Lit.over (Js.spread (Js.prop "meta" originalConfig))
                      [("hookName", VStr rawName);
                       ("processedName", VStr processedName);
                       ("kebabName", VStr kebabName)]))].

(** The [const]s of [useEnhancedHook], each as a function of [config]. *)
Definition configOf (hookNameOrConfig : NameOrConfig) : JsObj :=
  match hookNameOrConfig with
  | ByName s => Lit.over ∅ [("name", VStr s)]
  | ByConfig c => c
  end.

Definition rawName (config : JsObj) : string :=
  Js.str (Js.or (Js.prop "name" config) (VStr "")).

(** Lines 50-96, the part of [useEnhancedHook] after the declaration of
    [processedName], as functions of the string it would hold. *)

(** [processedName.replace(/[A-Z]/g, (letter) => `-${letter.toLowerCase()}`)],
    the expression that is the body of [kebabCase]. *)
Definition kebabName (processedName : string) : string :=
  kebabCase processedName.

Definition namingPlugin (config : JsObj) (processedName : string) : JsVal :=
  Lit.obj [("name", VStr ("naming-" +:+ kebabName processedName));
           ("beforeCreate",
            VFun (NamingBeforeCreate (rawName config) processedName
                    (kebabName processedName)))].

Definition lifecyclePlugin (config : JsObj) (processedName : string)
  : JsVal :=
  if Js.truthy (Js.prop "lifecycle" config)
  then VObj (Js.spread (Js.prop "lifecycle" config) ∪
             Lit.over ∅ [("name",
                          VStr ("lifecycle-" +:+ kebabName processedName))])
  else VUndef.

(** The object literal passed to [system.create] (lines 78-85). *)
Definition createConfig (config : JsObj) (processedName : string) : JsObj :=
  Lit.over config
    [("id", VStr (kebabName processedName));
     ("plugins",
      VArr (namingPlugin config processedName ::
            (if Js.truthy (lifecyclePlugin config processedName)
             then [lifecyclePlugin config processedName] else [])))].

Definition afterProcessedName (system : JsVal) (framework : Framework)
    (config : JsObj) (processedName : string) : prog JsVal :=
  reactive ← call (SystemCreate system (createConfig config processedName));
  mret (Lit.obj
          [("reactive", reactive);
           ("meta",
            Lit.obj [("originalName", VStr (rawName config));
                     ("processedName", VStr processedName);
                     ("kebabName", VStr (kebabName processedName));
                     ("framework", VStr (Framework_name framework))])]).

(** [createEnhancedHookFactory(system)(framework)(hookNameOrConfig)].
    Line 48, [const processedName = ExtractHookName<typeof rawName>],
    evaluates the identifier [ExtractHookName].  The file declares that
    name as a type alias only (lines 8-12) and imports nothing of that
    name, so at run time the identifier is unbound and the statement throws
    a ReferenceError: the hook ends there, on every input, before any
    plugin or request is built. *)
Definition useEnhancedHook (system : JsVal) (framework : Framework)
    (hookNameOrConfig : NameOrConfig) : prog JsVal :=
  let config := configOf hookNameOrConfig in
  processedName ← Throw (ReferenceError "ExtractHookName is not defined");
  afterProcessedName system framework config processedName.

End Enhanced.

(** ** The framework hook factory (createHookFactory) *)

Module Adapter.

(** [interface FrameworkAdapter]; [update] is declared by every adapter and
    called by none of the code below. *)
Record FrameworkAdapter : Type := {
  setup : JsVal -> prog JsVal;
  cleanup : prog JsVal;
  update : JsVal -> JsVal -> prog JsVal
}.

(** The [cleanup] functions build a thunk and return it; [useReactive] drops
    the result, so the thunk never runs. *)
Definition react_adapter : FrameworkAdapter := {|
  setup initialValue :=
    r ← call (UseState initialValue);
    mret (Lit.obj [("state", Lit.index 0 r); ("setState", Lit.index 1 r)]);
  cleanup := mret VUndef;
  update setState value := call (Invoke setState [value])
|}.

Definition solid_adapter : FrameworkAdapter := {|
  setup initialValue := call (CreateSignal initialValue);
  cleanup := mret VUndef;
  update setter value := call (Invoke setter [value])
|}.

Definition vue_adapter : FrameworkAdapter := {|
  setup initialValue := call (VueRef initialValue);
  cleanup := mret VUndef;
  update ref value := call (Assign ref "value" value)
|}.

(** [frameworkAdapters[framework]].  Only the three own properties carry a
    [setup]; any other key reads [undefined] or a member inherited from
    [Object.prototype], neither of which has one, so [None] stands for
    both. *)
Definition frameworkAdapters (framework : string) : option FrameworkAdapter :=
  if String.eqb framework "react" then Some react_adapter
  else if String.eqb framework "solid" then Some solid_adapter
  else if String.eqb framework "vue" then Some vue_adapter
  else None.

(** The body of the three [setValue] arrow functions (lines 114-117,
    125-128, 135-138): [await reactive.then((r) => r.set?.(newValue))]
    waits for [reactive], calls [set] on what it resolved to and waits for
    the result; only then comes the statement that writes the framework
    state. *)
Definition awaitSet (reactive newValue : JsVal) : prog JsVal :=
  r ← call (Await reactive);
  p ← call (ReactiveSet r newValue);
  call (Await p).

Definition setValueBody (c : Closure) (newValue : JsVal) : prog JsVal :=
  match c with
  | SetValueReact state reactive =>
      _ ← awaitSet reactive newValue;
      _ ← call (Invoke (Js.get "setState" state) [newValue]);
      mret VUndef
  | SetValueSolid setValue reactive =>
      _ ← awaitSet reactive newValue;
      _ ← call (Invoke setValue [newValue]);
      mret VUndef
  | SetValueVue state reactive =>
      _ ← awaitSet reactive newValue;
      _ ← call (Assign state "value" newValue);
      mret VUndef
  | _ => mret VUndef
  end.

(** The promise a [setValue] closure has captured. *)
Definition reactiveOf (c : Closure) : option JsVal :=
  match c with
  | SetValueReact _ reactive
  | SetValueSolid _ reactive
  | SetValueVue _ reactive => Some reactive
  | _ => None
  end.

(** The calls of a [setValue] that waits for the update before it writes:
    it waits for [reactive], calls [set] with [newValue] on what [reactive]
    resolved to, waits for what [set] returned, and then makes the call
    [write]; each call is made only when the one before it was answered
    without error. *)
Definition setThenWrite (reactive newValue : JsVal) (write : Call)
    (t : list (Call * (JsVal + Error))) : Prop :=
  (exists e, t = [(Await reactive, inr e)]) \/
  (exists r e,
     t = [(Await reactive, inl r); (ReactiveSet r newValue, inr e)]) \/
  (exists r p e,
     t = [(Await reactive, inl r); (ReactiveSet r newValue, inl p);
          (Await p, inr e)]) \/
  (exists r p u answer,
     t = [(Await reactive, inl r); (ReactiveSet r newValue, inl p);
          (Await p, inl u); (write, answer)]).

(** The call of an adapter's [setup]. *)
Definition isSetup (c : Call) : bool :=
  match c with
  | UseState _ | CreateSignal _ | VueRef _ => true
  | _ => false
  end.

(** The statement of a [setValue] body that writes the framework state. *)
Definition isFrameworkWrite (c : Call) : bool :=
  match c with
  | Invoke _ _ | Assign _ _ _ => true
  | _ => false
  end.

(** The destructuring of [config] (lines 76-82), with its defaults. *)
Definition id (config : JsObj) : JsVal := Js.prop "id" config.
Definition type (config : JsObj) : JsVal :=
  Js.withDefault (VStr "state") (Js.prop "type" config).
Definition initialValue (config : JsObj) : JsVal :=
  Js.prop "initialValue" config.
Definition lifecycle (config : JsObj) : JsVal :=
  Js.withDefault (VObj ∅) (Js.prop "lifecycle" config).
Definition dependencies (config : JsObj) : JsVal :=
  Js.withDefault (VArr []) (Js.prop "dependencies" config).

(** [lifecyclePlugin] (lines 85-92); [suffix] is [id || crypto.randomUUID()]. *)
Definition lifecyclePlugin (config : JsObj) (suffix : JsVal) : JsVal :=
  Lit.obj [("name", VStr ("lifecycle-" +:+ Js.template suffix));
           ("beforeCreate", Js.get "beforeCreate" (lifecycle config));
           ("afterCreate", Js.get "afterCreate" (lifecycle config));
           ("beforeUpdate", Js.get "beforeUpdate" (lifecycle config));
           ("afterUpdate", Js.get "afterUpdate" (lifecycle config));
           ("beforeDestroy", Js.get "beforeDestroy" (lifecycle config))].

(** The object literal passed to [system.create] (lines 98-104). *)
Definition createConfig (config : JsObj) (suffix : JsVal) : JsObj :=
  Lit.over ∅ [("id", id config);
              ("type", type config);
              ("initialValue", initialValue config);
              ("dependencies", dependencies config);
              ("plugins", VArr [lifecyclePlugin config suffix])].

(** [adapter.setup(initialValue)] and [adapter.cleanup()]: the member access
    on an [adapter] that is [undefined] or has no such member throws. *)
Definition adapterSetup (adapter : option FrameworkAdapter) (v : JsVal)
  : prog JsVal :=
  match adapter with
  | Some a => setup a v
  | None => Throw (TypeError "adapter.setup is not a function")
  end.

Definition adapterCleanup (adapter : option FrameworkAdapter) : prog JsVal :=
  match adapter with
  | Some a => cleanup a
  | None => Throw (TypeError "adapter.cleanup is not a function")
  end.

(** The [switch (framework)] (lines 110-144). *)
Definition binding (framework : string) (state reactive : JsVal)
  : prog JsVal :=
  if String.eqb framework "react" then
    mret (Lit.obj [("value", Js.get "state" state);
                   ("setValue", VFun (SetValueReact state reactive));
                   ("reactive", reactive)])
  else if String.eqb framework "solid" then
    let value := Lit.index 0 state in
    let setValue := Lit.index 1 state in
    mret (Lit.obj [("value", value);
                   ("setValue", VFun (SetValueSolid setValue reactive));
                   ("reactive", reactive)])
  else if String.eqb framework "vue" then
    mret (Lit.obj [("value", state);
                   ("setValue", VFun (SetValueVue state reactive));
                   ("reactive", reactive)])
  else Throw (PlainError ("Unsupported framework: " +:+ framework)).

(** An answer of the environment that is what the called function is
    documented to return: [crypto.randomUUID()] a string, [useState] and
    [createSignal] an array (the code destructures it), any other call a
    value rather than an error. *)
Definition asDocumented (e : Call * (JsVal + Error)) : bool :=
  match e with
  | (RandomUUID, inl (VStr _)) => true
  | (UseState _, inl (VArr _)) => true
  | (CreateSignal _, inl (VArr _)) => true
  | (RandomUUID, _) | (UseState _, _) | (CreateSignal _, _) => false
  | (_, inl _) => true
  | (_, inr _) => false
  end.

(** [createHookFactory(system)(framework)(config)].  The plugin's name is
    built first (line 86, with the call for a UUID when there is no [id]);
    the reads [lifecycle.beforeCreate], ... of lines 87-91 throw when the
    caller's [lifecycle] is [null], which the default [{}] does not
    replace. *)
Definition useReactive (system : JsVal) (framework : string) (config : JsObj)
  : prog JsVal :=
  let adapter := frameworkAdapters framework in
  suffix ← (if Js.truthy (id config) then mret (id config)
            else call RandomUUID);
  _ ← (if Js.isNull (lifecycle config)
       then Throw (TypeError "Cannot read properties of null")
       else mret VUndef);
  state ← adapterSetup adapter (initialValue config);
  reactive ← call (SystemCreate system (createConfig config suffix));
  _ ← adapterCleanup adapter;
  binding framework state reactive.

End Adapter.

(** ** The Component System and the framework libraries *)

Module Core.

(** Modelled from the spec: the Reactive of section 3, as the registry of a
    Component System holds it (the class [ComponentSystem] is imported by
    the sources and not part of them). *)
Record Reactive : Type := {
  rx_id : string;
  rx_type : JsVal;
  rx_value : JsVal;
  rx_dependencies : list string;
  rx_plugins : list JsVal
}.

(** What an address of [VHost] or a number of [Extern] denotes in the
    environment of the scenario. *)
Inductive HostObj : Type :=
| HSystem (plugins : list JsVal) (registry : gmap string Reactive)
| HPromise (settled : JsVal + Error)
| HReactive (system : nat) (id : string)
| HCell (v : JsVal)
| HGetter (cell : nat)
| HSetter (cell : nat)
| HFunction (f : list JsVal -> option JsVal).

Record World : Type := {
  heap : gmap nat HostObj;
  next : nat;
  uuids : list string
}.

Definition alloc (o : HostObj) (w : World) : nat * World :=
  (next w, {| heap := <[next w := o]> (heap w);
              next := S (next w);
              uuids := uuids w |}).

Definition store (a : nat) (o : HostObj) (w : World) : World :=
  {| heap := <[a := o]> (heap w); next := next w; uuids := uuids w |}.

Definition elements (v : JsVal) : list JsVal :=
  match v with VArr l => l | _ => [] end.

Definition strings (v : JsVal) : list string := map Js.str (elements v).

(** Modelled from the spec: calling an interceptor.  The closures of the
    sources run their bodies; a function of the caller is looked up in the
    heap; [None] is an interceptor that raises an error. *)
Definition applyFn (w : World) (f : JsVal) (args : list JsVal)
  : option JsVal :=
  match f with
  | VFun (NamingBeforeCreate rawName processedName kebabName) =>
      Some (VObj (Enhanced.namingBeforeCreate rawName processedName kebabName
                    (Js.spread (nth 0 args VUndef))))
  | VFun (FrameworkBeforeCreate framework) =>
      Some (VObj (V3.frameworkBeforeCreate framework
                    (Js.spread (nth 0 args VUndef))))
  | VFun (Extern n) =>
      match heap w !! n with
      | Some (HFunction g) => g args
      | _ => None
      end
  | _ => None
  end.

(** Modelled from the spec: a transforming fold (section 4.2).  Each
    plugin's interceptor [hook], if present, receives the fold so far and
    returns the next payload, in registration order; an absent interceptor
    passes the payload through. *)
Fixpoint foldHook (w : World) (hook : string) (pre : list JsVal)
    (plugins : list JsVal) (payload : JsVal) : option JsVal :=
  match plugins with
  | [] => Some payload
  | p :: rest =>
      match Js.get hook p with
      | VUndef => foldHook w hook pre rest payload
      | f =>
          match applyFn w f (pre ++ [payload]) with
          | Some payload' => foldHook w hook pre rest payload'
          | None => None
          end
      end
  end.

(** Modelled from the spec: a fan-out (section 4.2): every present
    interceptor is invoked in order with the finalized payload, which it
    does not alter. *)
Fixpoint fanOut (w : World) (hook : string) (plugins : list JsVal)
    (payload : JsVal) : bool :=
  match plugins with
  | [] => true
  | p :: rest =>
      match Js.get hook p with
      | VUndef => fanOut w hook rest payload
      | f => match applyFn w f [payload] with
             | Some _ => fanOut w hook rest payload
             | None => false
             end
      end
  end.

(** Modelled from the spec: the validation "no duplicate plugin names". *)
Definition duplicatePluginNames (plugins : list JsVal) : bool :=
  negb (bool_decide (NoDup (map (fun p => Js.str (Js.get "name" p)) plugins))).

(** Modelled from the spec: whether [target] is reachable from [from]
    through the declared dependencies of the live Reactives. *)
Fixpoint reaches (registry : gmap string Reactive) (fuel : nat)
    (from : list string) (target : string) : bool :=
  match fuel with
  | O => false
  | S fuel' =>
      existsb
        (fun d =>
           String.eqb d target ||
           match registry !! d with
           | Some r => reaches registry fuel' (rx_dependencies r) target
           | None => false
           end)
        from
  end.

(** Modelled from the spec: [create] (section 4.3).  Validation comes first
    and fails fast; the id defaults to the canonical transform of the
    conventional name; the beforeCreate fold yields the config that is used;
    the Reactive is constructed and the afterCreate fan-out runs on its
    [handle].  The caller registers the Reactive that is returned. *)
Definition create (w : World) (plugins0 : list JsVal)
    (registry : gmap string Reactive) (config : JsObj) (handle : JsVal)
  : (Reactive + Error) :=
  let plugins := plugins0 ++ elements (Js.prop "plugins" config) in
  let id :=
    match Js.prop "id" config with
    | VStr s => s
    | _ => reactiveId (Js.str (Js.prop "name" config))
    end in
  if bool_decide (is_Some (registry !! id)) then inr (Rejection "DuplicateId")
  else if reaches registry (S (size registry))
            (strings (Js.prop "dependencies" config)) id
  then inr (Rejection "CyclicDependency")
  else if duplicatePluginNames plugins then inr (Rejection "PluginRejected")
  else
    match foldHook w "beforeCreate" [] plugins (VObj (<["id" := VStr id]> config)) with
    | None => inr (Rejection "PluginRejected")
    | Some config' =>
        let r := {| rx_id := id;
                    rx_type := Js.withDefault (VStr "state")
                                 (Js.get "type" config');
                    rx_value := Js.get "initialValue" config';
                    rx_dependencies := strings (Js.get "dependencies" config');
                    rx_plugins := plugins |} in
        if fanOut w "afterCreate" plugins handle then inl r
        else inr (Rejection "PluginRejected")
    end.

(** Modelled from the spec: [set] (section 4.3): lookup, beforeUpdate fold
    seeded with the proposed value, commit of the fold's result, afterUpdate
    fan-out after the commit.  A failing beforeUpdate leaves the prior
    value.  The recomputation of dependents is left open by the spec and is
    not part of this definition. *)
Definition set (w : World) (registry : gmap string Reactive) (id : string)
    (newValue : JsVal) : gmap string Reactive * option Error :=
  match registry !! id with
  | None => (registry, Some (Rejection "NotFound"))
  | Some r =>
      match foldHook w "beforeUpdate" [rx_value r] (rx_plugins r) newValue with
      | None => (registry, Some (Rejection "PluginRejected"))
      | Some v =>
          let r' := {| rx_id := rx_id r; rx_type := rx_type r; rx_value := v;
                       rx_dependencies := rx_dependencies r;
                       rx_plugins := rx_plugins r |} in
          (<[id := r']> registry,
           if fanOut w "afterUpdate" (rx_plugins r) v then None
           else Some (Rejection "PluginRejected"))
      end
  end.

(** Modelled from the spec: [get] returns the current committed value. *)
Definition get (registry : gmap string Reactive) (id : string)
  : option JsVal :=
  rx_value <$> registry !! id.

(** A promise that is already settled with [o]. *)
Definition settle (o : JsVal + Error) (w : World) : (JsVal + Error) * World :=
  let '(p, w') := alloc (HPromise o) w in (inl (VHost p), w').

(** Modelled from the spec: the environment of the scenario.  The Component
    System is the one above: [create] and [set] return promises (section
    4.3), [await] of a promise gives what it was fulfilled with or throws
    what it was rejected with.  The state primitives of the three framework
    libraries are reduced to a cell that holds the current value:
    [useState] returns the value and a setter, [createSignal] a getter and a
    setter, [ref] the cell itself, whose [value] property is the content. *)
Definition host : Handler World := fun c w =>
  match c with
  | RandomUUID =>
      match uuids w with
      | u :: rest =>
          (inl (VStr u), {| heap := heap w; next := next w; uuids := rest |})
      | [] => (inl (VStr "00000000-0000-4000-8000-000000000000"), w)
      end
  | NewComponentSystem options =>
      let '(a, w') :=
        alloc (HSystem (elements (Js.get "plugins" options)) ∅) w in
      (inl (VHost a), w')
  | SystemCreate (VHost s) config =>
      match heap w !! s with
      | Some (HSystem plugins registry) =>
          match create w plugins registry config (VHost (next w)) with
          | inl r =>
              let w1 :=
                store s (HSystem plugins (<[rx_id r := r]> registry)) w in
              let '(h, w2) := alloc (HReactive s (rx_id r)) w1 in
              settle (inl (VHost h)) w2
          | inr e => settle (inr e) w
          end
      | _ => (inr (TypeError "system.create is not a function"), w)
      end
  | SystemCreate _ _ =>
      (inr (TypeError "system.create is not a function"), w)
  | UseState v =>
      let '(c, w1) := alloc (HCell v) w in
      let '(f, w2) := alloc (HSetter c) w1 in
      (inl (VArr [v; VFun (Extern f)]), w2)
  | CreateSignal v =>
      let '(c, w1) := alloc (HCell v) w in
      let '(g, w2) := alloc (HGetter c) w1 in
      let '(f, w3) := alloc (HSetter c) w2 in
      (inl (VArr [VFun (Extern g); VFun (Extern f)]), w3)
  | VueRef v =>
      let '(c, w1) := alloc (HCell v) w in (inl (VHost c), w1)
  | Await (VHost a) =>
      match heap w !! a with
      | Some (HPromise (inl v)) => (inl v, w)
      | Some (HPromise (inr e)) => (inr e, w)
      | _ => (inl (VHost a), w)
      end
  | Await v => (inl v, w)
  | ReactiveSet (VHost a) newValue =>
      match heap w !! a with
      | Some (HReactive s id) =>
          match heap w !! s with
          | Some (HSystem plugins registry) =>
              let '(registry', e) := set w registry id newValue in
              settle (match e with None => inl VUndef | Some e => inr e end)
                     (store s (HSystem plugins registry') w)
          | _ => (inr (TypeError "r.set is not a function"), w)
          end
      | _ => (inl VUndef, w)
      end
  | ReactiveSet (VUndef | VNull) _ =>
      (inr (TypeError "Cannot read properties of undefined"), w)
  | ReactiveSet _ _ => (inl VUndef, w)
  | Invoke (VFun (Extern n)) args =>
      match heap w !! n with
      | Some (HSetter c) => (inl VUndef, store c (HCell (nth 0 args VUndef)) w)
      | Some (HGetter c) =>
          match heap w !! c with
          | Some (HCell v) => (inl v, w)
          | _ => (inl VUndef, w)
          end
      | Some (HFunction g) =>
          match g args with
          | Some v => (inl v, w)
          | None => (inr (PlainError "interceptor failed"), w)
          end
      | _ => (inr (TypeError "not a function"), w)
      end
  | Invoke _ _ => (inr (TypeError "not a function"), w)
  | Assign (VHost a) k v =>
      match heap w !! a with
      | Some (HCell _) =>
          if String.eqb k "value" then (inl v, store a (HCell v) w)
          else (inl v, w)
      | _ => (inl v, w)
      end
  | Assign (VUndef | VNull) _ _ =>
      (inr (TypeError "Cannot set properties of undefined"), w)
  | Assign _ _ v => (inl v, w)
  end.

(** The content of the framework cell at [a]. *)
Definition cell (w : World) (a : nat) : option JsVal :=
  match heap w !! a with
  | Some (HCell v) => Some v
  | _ => None
  end.

(** [get(id)] on the Component System at [s]. *)
Definition systemGet (w : World) (s : nat) (id : string) : option JsVal :=
  match heap w !! s with
  | Some (HSystem _ registry) => get registry id
  | _ => None
  end.

End Core.

(** ** The scenario of section 8

    Create id [counter] with [initialValue = 0] and one plugin that doubles
    the value in [beforeUpdate]; then set [n] (5 in the spec).  The Reactive
    is created through [useReactive] and updated through the [setValue] of
    the binding it returns. *)

Module Scenario.

Definition double (args : list JsVal) : option JsVal :=
  match args with
  | [_; VNum n] => Some (VNum (2 * n))
  | _ => None
  end.

(** The Component System is at address 0, the doubling interceptor is the
    function 1. *)
Definition world0 : Core.World := {|
  Core.heap := <[1%nat := Core.HFunction double]>
                 (<[0%nat := Core.HSystem [] ∅]> ∅);
  Core.next := 2;
  Core.uuids := []
|}.

Definition config : JsObj :=
  Lit.over ∅
    [("id", VStr "counter");
     ("initialValue", VNum 0);
     ("lifecycle", Lit.obj [("beforeUpdate", VFun (Extern 1))])].

(** [binding.setValue(newValue)] *)
Definition setValue (binding newValue : JsVal) : prog JsVal :=
  match Js.get "setValue" binding with
  | VFun c => Adapter.setValueBody c newValue
  | _ => Throw (TypeError "binding.setValue is not a function")
  end.

Definition program (framework : string) (n : Z) : prog JsVal :=
  binding ← Adapter.useReactive (VHost 0) framework config;
  _ ← setValue binding (VNum n);
  mret binding.

(** The world after the scenario, with the binding. *)
Definition outcome (framework : string) (n : Z)
  : (JsVal + Error) * Core.World :=
  run Core.host (program framework n) world0.

(** [get("counter")] after the scenario. *)
Definition committed (framework : string) (n : Z) : option JsVal :=
  Core.systemGet (outcome framework n).2 0 "counter".

(** The [value] property of the binding. *)
Definition bindingValue (framework : string) (n : Z) : option JsVal :=
  match (outcome framework n).1 with
  | inl binding => Some (Js.get "value" binding)
  | inr _ => None
  end.

(** What the [value] of the binding shows after the scenario: the property
    itself for react, the answer of the accessor for solid, the [value]
    property of the reference for vue. *)
Definition exposed (framework : string) (n : Z) : option JsVal :=
  match outcome framework n with
  | (inl binding, w) =>
      match Js.get "value" binding with
      | VFun f =>
          match Core.host (Invoke (VFun f) []) w with
          | (inl v, _) => Some v
          | _ => None
          end
      | VHost a => Core.cell w a
      | v => Some v
      end
  | _ => None
  end.

End Scenario.

(** ** Facts about strings *)

Section StringFacts.

Lemma app_cons (c : ascii) (s t : string) :
  String c s +:+ t = String c (s +:+ t).
Proof. reflexivity. Qed.

Lemma app_nil_l (t : string) : "" +:+ t = t.
Proof. reflexivity. Qed.

Lemma app_length (a b : string) :
  String.length (a +:+ b) = (String.length a + String.length b)%nat.
Proof.
  induction a as [|x a IH]; [reflexivity |].
  rewrite app_cons. simpl. now rewrite IH.
Qed.

Lemma startsWith_spec (p s : string) :
  Str.startsWith p s = true <-> Str.hasPrefix p s.
Proof.
  revert s; induction p as [|a p IH]; intros s; simpl.
  - split; [intros _; now exists s | reflexivity].
  - destruct s as [|b s].
    + split; [discriminate | intros [r Hr]; discriminate].
    + rewrite andb_true_iff, Ascii.eqb_eq, IH. split.
      * intros [-> [r ->]]. now exists r.
      * intros [r Hr]. rewrite app_cons in Hr. injection Hr as -> ->.
        split; [reflexivity | now exists r].
Qed.

Lemma includes_spec (n s : string) :
  Str.includes n s = true <-> Str.contains n s.
Proof.
  induction s as [|c s IH].
  - simpl. rewrite orb_false_r, startsWith_spec. split.
    + intros [r Hr]. exists "", r. exact Hr.
    + intros [a [b Hab]]. destruct a; [now exists b | discriminate].
  - cbn [Str.includes]. rewrite orb_true_iff, startsWith_spec, IH. split.
    + intros [[r Hr] | [a [b Hab]]].
      * exists "", r. exact Hr.
      * exists (String c a), b. rewrite app_cons. now rewrite Hab.
    + intros [a [b Hab]]. destruct a as [|x a].
      * left. now exists b.
      * right. rewrite app_cons in Hab. injection Hab as _ ->.
        now exists a, b.
Qed.

Lemma includes_false (n s : string) :
  Str.includes n s = false <-> ~ Str.contains n s.
Proof.
  rewrite <- includes_spec. destruct (Str.includes n s); split; intros H;
    try reflexivity; try discriminate; try (intros ?; discriminate).
  exfalso; now apply H.
Qed.

Lemma toLowerCase_not_AZ (c : ascii) :
  Str.isAZ c = true -> Str.isAZ (Str.toLowerCase c) = false.
Proof.
  unfold Str.toLowerCase. intros H. rewrite H.
  unfold Str.isAZ in *. apply andb_true_iff in H as [H1 H2].
  apply Nat.leb_le in H1, H2.
  rewrite nat_ascii_embedding by lia.
  apply andb_false_iff. right. apply Nat.leb_gt. lia.
Qed.

Lemma kebabCase_noUpper (s : string) : Str.noUpper (kebabCase s) = true.
Proof.
  induction s as [|c s IH]; simpl; [reflexivity |].
  destruct (Str.isAZ c) eqn:E; simpl.
  - now rewrite (toLowerCase_not_AZ c E), IH.
  - now rewrite E, IH.
Qed.

Lemma kebabCase_id (s : string) : Str.noUpper s = true -> kebabCase s = s.
Proof.
  induction s as [|c s IH]; simpl; [reflexivity |].
  intros H. apply andb_true_iff in H as [Hc Hs].
  apply negb_true_iff in Hc. rewrite Hc. now rewrite IH.
Qed.

Lemma replace_Hook_end_noUpper (s : string) :
  Str.noUpper s = true -> replace_Hook_end s = s.
Proof.
  induction s as [|c s IH]; [reflexivity |].
  intros H. cbn [replace_Hook_end].
  destruct (String.eqb (String c s) "Hook") eqn:E.
  - apply String.eqb_eq in E. rewrite E in H. discriminate H.
  - simpl in H. apply andb_true_iff in H as [_ Hs]. now rewrite IH.
Qed.

Lemma replace_Hook_end_app (m : string) : replace_Hook_end (m +:+ "Hook") = m.
Proof.
  induction m as [|c m IH]; [reflexivity |].
  change (String c m +:+ "Hook") with (String c (m +:+ "Hook")).
  cbn [replace_Hook_end].
  destruct (String.eqb (String c (m +:+ "Hook")) "Hook") eqn:E.
  - apply String.eqb_eq in E. apply (f_equal String.length) in E.
    simpl in E. rewrite app_length in E. simpl in E. lia.
  - now rewrite IH.
Qed.

Lemma replace_Hook_end_none (m : string) :
  ~ Str.hasSuffix "Hook" m -> replace_Hook_end m = m.
Proof.
  induction m as [|c m IH]; [reflexivity |].
  intros H. cbn [replace_Hook_end].
  destruct (String.eqb (String c m) "Hook") eqn:E.
  - apply String.eqb_eq in E. exfalso. apply H. exists "". now rewrite E.
  - rewrite IH; [reflexivity |].
    intros [r Hr]. apply H. exists (String c r). rewrite app_cons.
    now rewrite Hr.
Qed.

Lemma replace_use_start_app (m : string) : replace_use_start ("use" +:+ m) = m.
Proof. reflexivity. Qed.

Lemma replace_use_start_none (m : string) :
  ~ Str.hasPrefix "use" m -> replace_use_start m = m.
Proof.
  intros H. unfold replace_use_start.
  repeat (match goal with
          | |- context [match ?x with _ => _ end] => destruct x; try reflexivity
          end).
  exfalso. apply H. now eexists.
Qed.

Lemma replace_use_start_noUpper (s : string) :
  Str.noUpper s = true -> Str.noUpper (replace_use_start s) = true.
Proof.
  intros H. destruct (Str.startsWith "use" s) eqn:E.
  - apply startsWith_spec in E as [r ->]. rewrite replace_use_start_app.
    exact H.
  - rewrite replace_use_start_none; [exact H |].
    rewrite <- startsWith_spec, E. discriminate.
Qed.

Lemma endsWith_spec (p s : string) :
  Str.endsWith p s = true <-> Str.hasSuffix p s.
Proof.
  induction s as [|c s IH].
  - cbn [Str.endsWith]. rewrite orb_false_r, String.eqb_eq. split.
    + intros <-. now exists "".
    + intros [r Hr]. destruct r; [exact Hr | discriminate].
  - cbn [Str.endsWith]. rewrite orb_true_iff, String.eqb_eq, IH. split.
    + intros [<- | [r ->]]; [now exists "" | now exists (String c r)].
    + intros [r Hr]. destruct r as [|x r].
      * left. exact Hr.
      * right. rewrite app_cons in Hr. injection Hr as _ ->. now exists r.
Qed.

Lemma endsWith_false (p s : string) :
  Str.endsWith p s = false -> ~ Str.hasSuffix p s.
Proof. intros H Hs. apply endsWith_spec in Hs. congruence. Qed.

Lemma startsWith_false (p s : string) :
  Str.startsWith p s = false -> ~ Str.hasPrefix p s.
Proof. intros H Hs. apply startsWith_spec in Hs. congruence. Qed.

Lemma startsWith_use_Hook (m : string) :
  Str.startsWith "use" (m +:+ "Hook") = Str.startsWith "use" m.
Proof.
  destruct m as [|a [|b [|c m]]]; rewrite ?app_cons, ?app_nil_l; simpl;
    rewrite ?andb_false_r; reflexivity.
Qed.

Lemma startsWith_length (p s : string) :
  Str.startsWith p s = true -> (String.length p <= String.length s)%nat.
Proof.
  revert s; induction p as [|a p IH]; intros [|b s]; simpl;
    try discriminate; try lia.
  intros H. apply andb_true_iff in H as [_ H]. apply IH in H. lia.
Qed.

End StringFacts.

(** ** The naming resolver *)

Section NamingResolver.

(** C4.  A name that carries the prefix [use] and the suffix [Hook] loses
    both; a name that carries only one of them loses that one; a name that
    carries neither is its own bare name.  The bare name of
    [useCounterHook] is [Counter]. *)
Theorem extractHookName_strips (m : string) :
  extractHookName ("use" +:+ m +:+ "Hook") = m /\
  (Str.endsWith "Hook" m = false -> extractHookName ("use" +:+ m) = m) /\
  (Str.startsWith "use" m = false -> extractHookName (m +:+ "Hook") = m) /\
  (Str.startsWith "use" m = false -> Str.endsWith "Hook" m = false ->
   extractHookName m = m) /\
  extractHookName "useCounterHook" = "Counter".
Proof.
  unfold extractHookName. repeat split.
  - rewrite replace_use_start_app. apply replace_Hook_end_app.
  - intros H. rewrite replace_use_start_app.
    apply replace_Hook_end_none, endsWith_false, H.
  - intros H. rewrite replace_use_start_none.
    + apply replace_Hook_end_app.
    + apply startsWith_false. now rewrite startsWith_use_Hook.
  - intros H1 H2. rewrite replace_use_start_none.
    + apply replace_Hook_end_none, endsWith_false, H2.
    + apply startsWith_false, H1.
Qed.

Lemma extractHookName_strips_witness :
  extractHookName "useCounter" = "Counter" /\
  extractHookName "CounterHook" = "Counter" /\
  extractHookName "Counter" = "Counter".
Proof.
  split; [| split].
  - apply (proj1 (proj2 (extractHookName_strips "Counter"))). reflexivity.
  - apply (proj1 (proj2 (proj2 (extractHookName_strips "Counter")))).
    reflexivity.
  - apply (proj1 (proj2 (proj2 (proj2 (extractHookName_strips "Counter")))));
      reflexivity.
Defined.

(** The type alias [ExtractHookName] that the enhanced factory names tries
    the suffix only when there is no prefix, unlike [extractHookName]. *)
Lemma ExtractHookName_alias :
  Enhanced.ExtractHookName "useCounterHook" = "CounterHook" /\
  Enhanced.ExtractHookName "useCounter" = "Counter" /\
  Enhanced.ExtractHookName "CounterHook" = "Counter".
Proof. repeat split. Qed.

(** Every capital letter gets its hyphen, the first one included. *)
Lemma kebabCase_capital (c : ascii) (rest : string) :
  Str.isAZ c = true ->
  kebabCase (String c rest) =
  String "-" (String (Str.toLowerCase c) (kebabCase rest)).
Proof. intros H. simpl. now rewrite H. Qed.

(** C2.  On a bare name whose first character is a capital the code puts a
    hyphen in front of it as well: [Counter] becomes [-counter], and so does
    the id derived from [useCounter] by either factory. *)
Theorem kebabCase_leading_hyphen :
  kebabCase "Counter" = "-counter" /\
  reactiveId "useCounter" = "-counter" /\
  kebabCase (Enhanced.ExtractHookName "useCounter") = "-counter".
Proof. repeat split. Qed.

(** C3, as stated, fails: the output [useless] of [useuseless] starts with
    [use] again and loses it in the second pass. *)
Lemma reactiveId_not_idempotent :
  ~ (forall s : string, reactiveId (reactiveId s) = reactiveId s).
Proof. intros H. specialize (H "useuseless"). discriminate H. Qed.

Lemma reactiveId_second_pass (s : string) :
  reactiveId (reactiveId s) = replace_use_start (reactiveId s).
Proof.
  unfold reactiveId at 1. unfold extractHookName.
  pose proof (kebabCase_noUpper (extractHookName s)) as H.
  fold (reactiveId s) in H.
  pose proof (replace_use_start_noUpper _ H) as H'.
  rewrite (replace_Hook_end_noUpper _ H'). now apply kebabCase_id.
Qed.

(** C3, amended.  Hyphenating an output again changes nothing, and the
    second pass of the whole transform only ever removes a leading [use]:
    its result is a suffix of the first output, equal to it exactly when the
    first output does not start with [use]. *)
Theorem reactiveId_twice (s : string) :
  kebabCase (reactiveId s) = reactiveId s /\
  Str.hasSuffix (reactiveId (reactiveId s)) (reactiveId s) /\
  (Str.startsWith "use" (reactiveId s) = false ->
   reactiveId (reactiveId s) = reactiveId s) /\
  (Str.startsWith "use" (reactiveId s) = true ->
   reactiveId (reactiveId s) <> reactiveId s).
Proof.
  rewrite reactiveId_second_pass.
  split; [apply kebabCase_id, kebabCase_noUpper |].
  destruct (Str.startsWith "use" (reactiveId s)) eqn:E.
  - pose proof E as E'. apply startsWith_spec in E' as [r Hr]. rewrite Hr.
    rewrite replace_use_start_app. split; [now exists "use" |].
    split; [discriminate |]. intros _ Heq.
    apply (f_equal String.length) in Heq. rewrite app_length in Heq.
    simpl in Heq. lia.
  - rewrite replace_use_start_none by now apply startsWith_false.
    split; [now exists "" |]. split; [reflexivity | discriminate].
Qed.

Lemma reactiveId_twice_witness :
  reactiveId (reactiveId "useCounterHook") = reactiveId "useCounterHook" /\
  reactiveId (reactiveId "useuseless") <> reactiveId "useuseless".
Proof.
  split.
  - apply (proj1 (proj2 (proj2 (reactiveId_twice "useCounterHook")))).
    reflexivity.
  - apply (proj2 (proj2 (proj2 (reactiveId_twice "useuseless")))).
    reflexivity.
Defined.

End NamingResolver.


(** ** Framework inference *)

Section Inference.

(** C10.  The context keeps the file name; [.tsx] or [.jsx] anywhere in the
    name gives react, whatever else the name contains; failing that,
    [.solid] gives solid; failing that, [.vue] gives vue; failing that,
    react.  The imports are the fixed list of the framework found. *)
Theorem inferHookContext_spec (file : string) :
  let ctx := inferHookContext file in
  filename ctx = file /\
  imports ctx =
    match framework ctx with
    | react => ["useState"; "useEffect"]
    | solid => ["createSignal"; "createEffect"]
    | vue => ["ref"; "onMounted"]
    end /\
  (Str.contains ".tsx" file \/ Str.contains ".jsx" file ->
   framework ctx = react) /\
  (~ Str.contains ".tsx" file -> ~ Str.contains ".jsx" file ->
   Str.contains ".solid" file -> framework ctx = solid) /\
  (~ Str.contains ".tsx" file -> ~ Str.contains ".jsx" file ->
   ~ Str.contains ".solid" file -> Str.contains ".vue" file ->
   framework ctx = vue) /\
  (~ Str.contains ".tsx" file -> ~ Str.contains ".jsx" file ->
   ~ Str.contains ".solid" file -> ~ Str.contains ".vue" file ->
   framework ctx = react).
Proof.
  cbn zeta. unfold inferHookContext; cbn [filename imports framework].
  split; [reflexivity |]. split; [reflexivity |].
  unfold inferFrameworkFromFilename.
  repeat split.
  - intros [H | H]; apply includes_spec in H; rewrite H;
      [reflexivity | now rewrite orb_true_r].
  - intros H1 H2 H3. apply includes_false in H1, H2.
    apply includes_spec in H3. now rewrite H1, H2, H3.
  - intros H1 H2 H3 H4. apply includes_false in H1, H2, H3.
    apply includes_spec in H4. now rewrite H1, H2, H3, H4.
  - intros H1 H2 H3 H4. apply includes_false in H1, H2, H3, H4.
    now rewrite H1, H2, H3, H4.
Qed.

Lemma inferHookContext_spec_witness :
  framework (inferHookContext "Counter.solid.tsx") = react /\
  imports (inferHookContext "Counter.solid.tsx") = ["useState"; "useEffect"].
Proof.
  pose proof (inferHookContext_spec "Counter.solid.tsx") as H.
  cbn zeta in H. destruct H as (_ & Himports & Htsx & _).
  assert (Hr : framework (inferHookContext "Counter.solid.tsx") = react).
  { apply Htsx. left. exists "Counter.solid", "". reflexivity. }
  split; [exact Hr |]. rewrite Himports, Hr. reflexivity.
Defined.

End Inference.

(** ** The creation requests of the factories *)

Section Requests.

Context {W : Type} (h : Handler W).

(** [useEnhancedHook] ends at line 48: it throws the ReferenceError on every
    input, in every environment, without a call. *)
Lemma useEnhancedHook_throws (w : W) (system : JsVal) (fw : Framework)
    (input : Enhanced.NameOrConfig) :
  run h (Enhanced.useEnhancedHook system fw input) w =
    (inr (ReferenceError "ExtractHookName is not defined"), w) /\
  trace h (Enhanced.useEnhancedHook system fw input) w = [].
Proof. split; reflexivity. Qed.







Lemma adapter_createConfig_plugins (config : JsObj) (suffix : JsVal) :
  Js.prop "plugins" (Adapter.createConfig config suffix) =
  VArr [Adapter.lifecyclePlugin config suffix].
Proof.
  unfold Js.prop, Adapter.createConfig, Lit.over. cbn [fold_left fst snd].
  now rewrite lookup_insert_eq.
Qed.


End Requests.



(** ** The beforeCreate interceptors of the factories *)

Section Interceptors.

(** C9, as stated, fails: an entry of [meta] under one of the plugin's own
    keys is not preserved.  The framework plugin for react turns
    [meta.framework = "vue"] into [meta.framework = "react"]. *)
Lemma beforeCreate_overwrites_own_key :
  ~ (forall (fw : Framework) (config : JsObj) (k : string) (v : JsVal),
       Js.meta config !! k = Some v ->
       Js.meta (V3.frameworkBeforeCreate fw config) !! k = Some v).
Proof.
  intros H.
  specialize (H react
                (Lit.over ∅ [("meta", Lit.obj [("framework", VStr "vue")])])
                "framework" (VStr "vue") eq_refl).
  vm_compute in H. discriminate H.
Qed.

Lemma frameworkBeforeCreate_meta (fw : Framework) (config : JsObj) :
  Js.meta (V3.frameworkBeforeCreate fw config) =
  <["framework" := VStr (Framework_name fw)]> (Js.meta config).
Proof.
  unfold Js.meta at 1, Js.prop, V3.frameworkBeforeCreate, Lit.over.
  cbn [fold_left fst snd]. now rewrite lookup_insert_eq.
Qed.

Lemma namingBeforeCreate_meta (rawName processedName kebabName : string)
    (config : JsObj) :
  Js.meta (Enhanced.namingBeforeCreate rawName processedName kebabName config)
  = <["kebabName" := VStr kebabName]>
      (<["processedName" := VStr processedName]>
         (<["hookName" := VStr rawName]> (Js.meta config))).
Proof.
  unfold Js.meta at 1, Js.prop, Enhanced.namingBeforeCreate, Lit.over.
  cbn [fold_left fst snd]. now rewrite lookup_insert_eq.
Qed.

(** C9, amended.  Both interceptors return the config with every property
    other than [meta] as it was; in [meta] every entry under a key that is
    not one of the plugin's own is as it was, and the plugin's own keys hold
    the plugin's values, whatever they held before. *)
Theorem beforeCreate_frame (config : JsObj) :
  (forall fw k, k <> "meta" ->
     V3.frameworkBeforeCreate fw config !! k = config !! k) /\
  (forall fw k, k <> "framework" ->
     Js.meta (V3.frameworkBeforeCreate fw config) !! k = Js.meta config !! k) /\
  (forall fw,
     Js.meta (V3.frameworkBeforeCreate fw config) !! "framework" =
     Some (VStr (Framework_name fw))) /\
  (forall raw processed kebab k, k <> "meta" ->
     Enhanced.namingBeforeCreate raw processed kebab config !! k =
     config !! k) /\
  (forall raw processed kebab k,
     k <> "hookName" -> k <> "processedName" -> k <> "kebabName" ->
     Js.meta (Enhanced.namingBeforeCreate raw processed kebab config) !! k =
     Js.meta config !! k) /\
  (forall raw processed kebab,
     let meta' :=
       Js.meta (Enhanced.namingBeforeCreate raw processed kebab config) in
     meta' !! "hookName" = Some (VStr raw) /\
     meta' !! "processedName" = Some (VStr processed) /\
     meta' !! "kebabName" = Some (VStr kebab)).
Proof.
  split; [| split; [| split; [| split; [| split]]]].
  - intros fw k Hk. unfold V3.frameworkBeforeCreate, Lit.over.
    cbn [fold_left fst snd]. now rewrite lookup_insert_ne.
  - intros fw k Hk. rewrite frameworkBeforeCreate_meta.
    now rewrite lookup_insert_ne.
  - intros fw. rewrite frameworkBeforeCreate_meta. apply lookup_insert_eq.
  - intros raw processed kebab k Hk.
    unfold Enhanced.namingBeforeCreate, Lit.over.
    cbn [fold_left fst snd]. now rewrite lookup_insert_ne.
  - intros raw processed kebab k H1 H2 H3. rewrite namingBeforeCreate_meta.
    now rewrite !lookup_insert_ne.
  - intros raw processed kebab meta'. subst meta'.
    rewrite namingBeforeCreate_meta. split; [| split].
    + rewrite !lookup_insert_ne by discriminate. apply lookup_insert_eq.
    + rewrite lookup_insert_ne by discriminate. apply lookup_insert_eq.
    + apply lookup_insert_eq.
Qed.

Lemma beforeCreate_frame_witness :
  let config :=
    Lit.over ∅ [("id", VStr "counter");
                ("meta", Lit.obj [("origin", VStr "test")])] in
  V3.frameworkBeforeCreate react config !! "id" = config !! "id" /\
  Js.meta (V3.frameworkBeforeCreate react config) !! "origin" =
  Js.meta config !! "origin" /\
  Js.meta (Enhanced.namingBeforeCreate "useCounter" "Counter" "-counter"
             config) !! "origin" = Js.meta config !! "origin".
Proof.
  cbn zeta.
  pose proof (beforeCreate_frame
                (Lit.over ∅ [("id", VStr "counter");
                             ("meta", Lit.obj [("origin", VStr "test")])]))
    as (H1 & H2 & _ & _ & H5 & _).
  split; [apply H1; discriminate |].
  split; [apply H2; discriminate |].
  apply H5; discriminate.
Defined.

(** The framework interceptor is the [beforeCreate] property of the plugin
    that [createFrameworkPlugin] returns. *)
Lemma plugins_beforeCreate (fw : Framework) :
  Js.get "beforeCreate" (V3.createFrameworkPlugin fw) =
    VFun (FrameworkBeforeCreate fw).
Proof.
  unfold Js.get, Js.prop, V3.createFrameworkPlugin, Lit.obj, Lit.over.
  cbn [fold_left fst snd Js.spread]. now rewrite !lookup_insert_eq.
Qed.

End Interceptors.

(** ** The bindings of [useReactive] *)

Section Bindings.

Context {W : Type} (h : Handler W).

Ltac answer :=
  match goal with
  | |- context [h ?c ?x] => destruct (h c x) as [[?|?] ?]
  end.

Ltac steps :=
  cbn [mbind mret prog_bind prog_ret bind call trace run Adapter.awaitSet
       Adapter.setValueBody].

(** A framework write is the fourth call of a [setValue], after the three
    calls of [await reactive.then((r) => r.set?.(newValue))] were answered;
    and it is made once they are. *)
Lemma setValue_trace (w : W) (c : Closure) (newValue : JsVal) :
  let t := trace h (Adapter.setValueBody c newValue) w in
  (forall e, e ∈ t -> Adapter.isFrameworkWrite e.1 = false) \/
  (exists reactive r p u write answer,
     t = [(Await reactive, inl r); (ReactiveSet r newValue, inl p);
          (Await p, inl u); (write, answer)]).
Proof.
  destruct c; steps; try (left; intros x Hx; now inversion Hx);
    repeat (answer; steps);
    try (right; repeat eexists; fail);
    left; intros x Hx;
    repeat (apply elem_of_cons in Hx as [-> | Hx]; [reflexivity |]);
    inversion Hx.
Qed.

(** In every run of a [setValue], a write to the framework state has
    exactly three calls before it, all answered without error, and nothing
    after it. *)
Lemma setValue_writes_after_set (w : W) (c : Closure) (newValue : JsVal)
    (pre post : list (Call * (JsVal + Error))) (e : Call * (JsVal + Error)) :
  trace h (Adapter.setValueBody c newValue) w = pre ++ e :: post ->
  Adapter.isFrameworkWrite e.1 = true ->
  post = [] /\
  exists reactive r p u,
    pre = [(Await reactive, inl r); (ReactiveSet r newValue, inl p);
           (Await p, inl u)].
Proof.
  intros Ht Hw.
  destruct (setValue_trace w c newValue) as [Hnone | Hfour]; cbn zeta in *.
  - rewrite Ht in Hnone. rewrite Hnone in Hw; [discriminate |].
    apply elem_of_app. right. apply elem_of_cons. now left.
  - destruct Hfour as (reactive & r & p & u & write & answer & Heq).
    rewrite Heq in Ht.
    destruct pre as [|x1 [|x2 [|x3 [|x4 pre]]]]; cbn in Ht;
      injection Ht as <-; subst; try discriminate Hw.
    + split; [reflexivity | eauto].
    + destruct pre; discriminate.
Qed.

Ltac run_steps :=
  cbn [mbind mret prog_bind prog_ret bind call trace run Adapter.setup
       Adapter.cleanup Adapter.react_adapter Adapter.solid_adapter
       Adapter.vue_adapter Adapter.adapterSetup Adapter.adapterCleanup].

Lemma frameworkAdapters_three (framework : string) :
  Adapter.frameworkAdapters framework = None <->
  framework <> "react" /\ framework <> "solid" /\ framework <> "vue".
Proof.
  unfold Adapter.frameworkAdapters.
  destruct (String.eqb_spec framework "react") as [-> | H1];
    [split; [discriminate | intros [? _]; congruence] |].
  destruct (String.eqb_spec framework "solid") as [-> | H2];
    [split; [discriminate | intros (_ & ? & _); congruence] |].
  destruct (String.eqb_spec framework "vue") as [-> | H3];
    [split; [discriminate | intros (_ & _ & ?); congruence] |].
  split; [now intros _ | reflexivity].
Qed.

Lemma useReactive_unknown (w : W) (system : JsVal) (framework : string)
    (config : JsObj) :
  Adapter.frameworkAdapters framework = None ->
  exists e w', run h (Adapter.useReactive system framework config) w
               = (inr e, w').
Proof.
  intros Hnone. unfold Adapter.useReactive. rewrite Hnone.
  destruct (Js.truthy (Adapter.id config));
    destruct (Js.isNull (Adapter.lifecycle config)); run_steps;
    try (answer; run_steps); eauto.
Qed.

(** What a binding that was returned is made of. *)
Ltac binding_facts :=
  unfold Adapter.useReactive, Adapter.binding;
  cbn [Adapter.frameworkAdapters String.eqb Ascii.eqb Bool.eqb];
  destruct (Js.truthy (Adapter.id _));
  destruct (Js.isNull (Adapter.lifecycle _)); run_steps;
  repeat (answer; run_steps);
  intros Hrun; try discriminate Hrun;
  injection Hrun as <- _;
  do 3 eexists;
  (split; [repeat first [apply list_elem_of_here | apply list_elem_of_further] |]);
  (split; [repeat first [apply list_elem_of_here | apply list_elem_of_further] |]);
  repeat split; reflexivity.

Lemma useReactive_react (w w' : W) (system : JsVal) (config : JsObj)
    (b : JsVal) :
  run h (Adapter.useReactive system "react" config) w = (inl b, w') ->
  exists st reactive request,
    (UseState (Adapter.initialValue config), inl st)
      ∈ trace h (Adapter.useReactive system "react" config) w /\
    (SystemCreate system request, inl reactive)
      ∈ trace h (Adapter.useReactive system "react" config) w /\
    Js.get "value" b = Lit.index 0 st /\
    Js.get "setValue" b =
      VFun (SetValueReact
              (Lit.obj [("state", Lit.index 0 st);
                        ("setState", Lit.index 1 st)]) reactive) /\
    Js.get "reactive" b = reactive.
Proof. binding_facts. Qed.

Lemma useReactive_solid (w w' : W) (system : JsVal) (config : JsObj)
    (b : JsVal) :
  run h (Adapter.useReactive system "solid" config) w = (inl b, w') ->
  exists st reactive request,
    (CreateSignal (Adapter.initialValue config), inl st)
      ∈ trace h (Adapter.useReactive system "solid" config) w /\
    (SystemCreate system request, inl reactive)
      ∈ trace h (Adapter.useReactive system "solid" config) w /\
    Js.get "value" b = Lit.index 0 st /\
    Js.get "setValue" b = VFun (SetValueSolid (Lit.index 1 st) reactive) /\
    Js.get "reactive" b = reactive.
Proof. binding_facts. Qed.

Lemma useReactive_vue (w w' : W) (system : JsVal) (config : JsObj)
    (b : JsVal) :
  run h (Adapter.useReactive system "vue" config) w = (inl b, w') ->
  exists st reactive request,
    (VueRef (Adapter.initialValue config), inl st)
      ∈ trace h (Adapter.useReactive system "vue" config) w /\
    (SystemCreate system request, inl reactive)
      ∈ trace h (Adapter.useReactive system "vue" config) w /\
    Js.get "value" b = st /\
    Js.get "setValue" b = VFun (SetValueVue st reactive) /\
    Js.get "reactive" b = reactive.
Proof. binding_facts. Qed.

(** When every call is answered as documented, the hook for one of the
    three frameworks returns. *)
Ltac returns_binding :=
  intros _ Hobj; unfold Adapter.useReactive, Adapter.binding;
  cbn [Adapter.frameworkAdapters String.eqb Ascii.eqb Bool.eqb];
  destruct (Adapter.lifecycle _); try discriminate Hobj; cbn [Js.isNull];
  destruct (Js.truthy (Adapter.id _)); run_steps;
  repeat (match goal with
          | |- context [h ?c ?x] =>
              destruct (h c x) as [[[]|?] ?]; run_steps;
              cbn [forallb Adapter.asDocumented andb];
              try (intros Hdoc; discriminate Hdoc)
          end);
  intros _; do 2 eexists; reflexivity.

Lemma useReactive_react_returns (w : W) (system : JsVal) (config : JsObj) :
  Js.primitive (Adapter.id config) = true ->
  Js.isObject (Adapter.lifecycle config) = true ->
  forallb Adapter.asDocumented
    (trace h (Adapter.useReactive system "react" config) w) = true ->
  exists b w',
    run h (Adapter.useReactive system "react" config) w = (inl b, w').
Proof. returns_binding. Qed.

Lemma useReactive_solid_returns (w : W) (system : JsVal) (config : JsObj) :
  Js.primitive (Adapter.id config) = true ->
  Js.isObject (Adapter.lifecycle config) = true ->
  forallb Adapter.asDocumented
    (trace h (Adapter.useReactive system "solid" config) w) = true ->
  exists b w',
    run h (Adapter.useReactive system "solid" config) w = (inl b, w').
Proof. returns_binding. Qed.

Lemma useReactive_vue_returns (w : W) (system : JsVal) (config : JsObj) :
  Js.primitive (Adapter.id config) = true ->
  Js.isObject (Adapter.lifecycle config) = true ->
  forallb Adapter.asDocumented
    (trace h (Adapter.useReactive system "vue" config) w) = true ->
  exists b w',
    run h (Adapter.useReactive system "vue" config) w = (inl b, w').
Proof. returns_binding. Qed.

Lemma setValue_react_calls (w : W) (state reactive newValue : JsVal) :
  Adapter.setThenWrite reactive newValue
    (Invoke (Js.get "setState" state) [newValue])
    (trace h (Adapter.setValueBody (SetValueReact state reactive) newValue) w).
Proof.
  unfold Adapter.setThenWrite. steps.
  answer; steps; [| left; eauto].
  answer; steps; [| right; left; eauto].
  answer; steps; [| right; right; left; eauto].
  answer; steps; right; right; right; eauto.
Qed.

Lemma setValue_solid_calls (w : W) (setValue reactive newValue : JsVal) :
  Adapter.setThenWrite reactive newValue (Invoke setValue [newValue])
    (trace h (Adapter.setValueBody (SetValueSolid setValue reactive)
                newValue) w).
Proof.
  unfold Adapter.setThenWrite. steps.
  answer; steps; [| left; eauto].
  answer; steps; [| right; left; eauto].
  answer; steps; [| right; right; left; eauto].
  answer; steps; right; right; right; eauto.
Qed.

Lemma setValue_vue_calls (w : W) (state reactive newValue : JsVal) :
  Adapter.setThenWrite reactive newValue (Assign state "value" newValue)
    (trace h (Adapter.setValueBody (SetValueVue state reactive) newValue) w).
Proof.
  unfold Adapter.setThenWrite. steps.
  answer; steps; [| left; eauto].
  answer; steps; [| right; left; eauto].
  answer; steps; [| right; right; left; eauto].
  answer; steps; right; right; right; eauto.
Qed.

(** C6.  Each of the three [setValue] closures makes exactly these calls,
    in this order, in every environment: it waits for the promise
    [reactive] that it captured, calls [set] with [newValue] on the
    Reactive the promise resolved to, waits for what [set] returned, and
    only then writes the framework state ([setState], the signal's setter,
    the [value] of the reference).  A call is made only when the one before
    it was answered without error, so the state is never written before the
    update has resolved and not at all when the update fails.  The promise
    captured by the [setValue] of a binding that [useReactive] returned is
    the one that [system.create] answered. *)
Theorem setValue_awaits_set (w : W) (newValue : JsVal) :
  (forall state reactive,
     Adapter.setThenWrite reactive newValue
       (Invoke (Js.get "setState" state) [newValue])
       (trace h (Adapter.setValueBody (SetValueReact state reactive)
                   newValue) w)) /\
  (forall setValue reactive,
     Adapter.setThenWrite reactive newValue (Invoke setValue [newValue])
       (trace h (Adapter.setValueBody (SetValueSolid setValue reactive)
                   newValue) w)) /\
  (forall state reactive,
     Adapter.setThenWrite reactive newValue (Assign state "value" newValue)
       (trace h (Adapter.setValueBody (SetValueVue state reactive)
                   newValue) w)) /\
  (forall system framework config b w',
     framework = "react" \/ framework = "solid" \/ framework = "vue" ->
     run h (Adapter.useReactive system framework config) w = (inl b, w') ->
     exists c reactive request,
       Js.get "setValue" b = VFun c /\
       Adapter.reactiveOf c = Some reactive /\
       (SystemCreate system request, inl reactive)
         ∈ trace h (Adapter.useReactive system framework config) w).
Proof.
  split; [intros; apply setValue_react_calls |].
  split; [intros; apply setValue_solid_calls |].
  split; [intros; apply setValue_vue_calls |].
  intros system framework config b w' [-> | [-> | ->]] Hrun.
  - apply useReactive_react in Hrun
      as (st & reactive & request & _ & Hc & _ & Hs & _).
    rewrite Hs. do 3 eexists. split; [reflexivity |].
    split; [reflexivity | exact Hc].
  - apply useReactive_solid in Hrun
      as (st & reactive & request & _ & Hc & _ & Hs & _).
    rewrite Hs. do 3 eexists. split; [reflexivity |].
    split; [reflexivity | exact Hc].
  - apply useReactive_vue in Hrun
      as (st & reactive & request & _ & Hc & _ & Hs & _).
    rewrite Hs. do 3 eexists. split; [reflexivity |].
    split; [reflexivity | exact Hc].
Qed.

(** C7.  The table of adapters has the three keys [react], [solid] and
    [vue] and no other, and with any other framework argument [useReactive]
    ends in an error, whatever the environment answers.  With one of the
    three, [useReactive] returns a binding whenever its calls are answered
    as documented (the config being one whose [id] is a primitive and whose
    [lifecycle] is absent or an object).  The binding returned for [react] has as
    [value] the state value that [useState] returned, for [solid] the
    accessor that [createSignal] returned, for [vue] the reference object
    that [ref] returned; its setter is the [setValue] closure of that
    variant, over the promise that [system.create] answered. *)
Theorem useReactive_bindings (w : W) (system : JsVal) (config : JsObj) :
  (forall framework,
     Adapter.frameworkAdapters framework = None <->
     framework <> "react" /\ framework <> "solid" /\ framework <> "vue") /\
  (forall framework,
     framework <> "react" -> framework <> "solid" -> framework <> "vue" ->
     exists e w', run h (Adapter.useReactive system framework config) w
                  = (inr e, w')) /\
  (forall framework,
     framework = "react" \/ framework = "solid" \/ framework = "vue" ->
     Js.primitive (Adapter.id config) = true ->
     Js.isObject (Adapter.lifecycle config) = true ->
     forallb Adapter.asDocumented
       (trace h (Adapter.useReactive system framework config) w) = true ->
     exists b w',
       run h (Adapter.useReactive system framework config) w = (inl b, w')) /\
  (forall b w',
     run h (Adapter.useReactive system "react" config) w = (inl b, w') ->
     exists st reactive request,
       (UseState (Adapter.initialValue config), inl st)
         ∈ trace h (Adapter.useReactive system "react" config) w /\
       (SystemCreate system request, inl reactive)
         ∈ trace h (Adapter.useReactive system "react" config) w /\
       Js.get "value" b = Lit.index 0 st /\
       Js.get "setValue" b =
         VFun (SetValueReact
                 (Lit.obj [("state", Lit.index 0 st);
                           ("setState", Lit.index 1 st)]) reactive) /\
       Js.get "reactive" b = reactive) /\
  (forall b w',
     run h (Adapter.useReactive system "solid" config) w = (inl b, w') ->
     exists st reactive request,
       (CreateSignal (Adapter.initialValue config), inl st)
         ∈ trace h (Adapter.useReactive system "solid" config) w /\
       (SystemCreate system request, inl reactive)
         ∈ trace h (Adapter.useReactive system "solid" config) w /\
       Js.get "value" b = Lit.index 0 st /\
       Js.get "setValue" b = VFun (SetValueSolid (Lit.index 1 st) reactive) /\
       Js.get "reactive" b = reactive) /\
  (forall b w',
     run h (Adapter.useReactive system "vue" config) w = (inl b, w') ->
     exists st reactive request,
       (VueRef (Adapter.initialValue config), inl st)
         ∈ trace h (Adapter.useReactive system "vue" config) w /\
       (SystemCreate system request, inl reactive)
         ∈ trace h (Adapter.useReactive system "vue" config) w /\
       Js.get "value" b = st /\
       Js.get "setValue" b = VFun (SetValueVue st reactive) /\
       Js.get "reactive" b = reactive).
Proof.
  split; [apply frameworkAdapters_three |].
  split; [| split; [| split; [| split]]].
  - intros framework H1 H2 H3. apply useReactive_unknown.
    now apply frameworkAdapters_three.
  - intros framework [-> | [-> | ->]].
    + apply useReactive_react_returns.
    + apply useReactive_solid_returns.
    + apply useReactive_vue_returns.
  - intros b w'. apply useReactive_react.
  - intros b w'. apply useReactive_solid.
  - intros b w'. apply useReactive_vue.
Qed.

End Bindings.

Lemma setValue_writes_after_set_example :
  exists reactive r p u : JsVal,
    ([(Await (VHost 4), inl (VHost 3));
      (ReactiveSet (VHost 3) (VNum 5), inl (VHost 5));
      (Await (VHost 5), inl VUndef)] : list (Call * (JsVal + Error))) =
    [(Await reactive, inl r); (ReactiveSet r (VNum 5), inl p);
     (Await p, inl u)].
Proof.
  refine (proj2 (setValue_writes_after_set Core.host
                   (run Core.host
                      (Adapter.useReactive (VHost 0) "vue" Scenario.config)
                      Scenario.world0).2
                   (SetValueVue (VHost 2) (VHost 4)) (VNum 5)
                   [(Await (VHost 4), inl (VHost 3));
                    (ReactiveSet (VHost 3) (VNum 5), inl (VHost 5));
                    (Await (VHost 5), inl VUndef)]
                   []
                   (Assign (VHost 2) "value" (VNum 5), inl (VNum 5))
                   _ _)).
  - vm_compute. reflexivity.
  - reflexivity.
Defined.

Lemma setValue_awaits_set_witness :
  exists c reactive request,
    Scenario.bindingValue "vue" 5 = Some (VHost 2) /\
    Adapter.reactiveOf c = Some reactive /\
    (SystemCreate (VHost 0) request, inl reactive)
      ∈ trace Core.host
          (Adapter.useReactive (VHost 0) "vue" Scenario.config)
          Scenario.world0.
Proof.
  destruct (proj2 (proj2 (proj2
              (setValue_awaits_set Core.host Scenario.world0 (VNum 5))))
              (VHost 0) "vue" Scenario.config
              (Lit.obj [("value", VHost 2);
                        ("setValue", VFun (SetValueVue (VHost 2) (VHost 4)));
                        ("reactive", VHost 4)])
              (run Core.host
                 (Adapter.useReactive (VHost 0) "vue" Scenario.config)
                 Scenario.world0).2)
    as (c & reactive & request & _ & Hc & Hin).
  - right. right. reflexivity.
  - vm_compute. reflexivity.
  - exists c, reactive, request. split; [vm_compute; reflexivity |].
    split; [exact Hc | exact Hin].
Defined.

Lemma useReactive_bindings_witness :
  (exists b w',
     run Core.host (Adapter.useReactive (VHost 0) "react" Scenario.config)
       Scenario.world0 = (inl b, w')) /\
  (exists b w',
     run Core.host (Adapter.useReactive (VHost 0) "solid" Scenario.config)
       Scenario.world0 = (inl b, w')) /\
  (exists b w',
     run Core.host (Adapter.useReactive (VHost 0) "vue" Scenario.config)
       Scenario.world0 = (inl b, w')) /\
  (exists e w',
     run Core.host (Adapter.useReactive (VHost 0) "svelte" Scenario.config)
       Scenario.world0 = (inr e, w')).
Proof.
  pose proof (useReactive_bindings Core.host Scenario.world0 (VHost 0)
                Scenario.config) as (_ & Hunknown & Hreturns & _).
  split; [| split; [| split]].
  - apply (Hreturns "react"); [now left | reflexivity | reflexivity |].
    vm_compute. reflexivity.
  - apply (Hreturns "solid");
      [right; now left | reflexivity | reflexivity |].
    vm_compute. reflexivity.
  - apply (Hreturns "vue");
      [right; now right | reflexivity | reflexivity |].
    vm_compute. reflexivity.
  - apply (Hunknown "svelte"); discriminate.
Defined.

(** ** The scenario *)

Section ScenarioFacts.

(** C5, as stated, fails: after [setValue(5)] the committed value is 10 but
    the binding does not show it. *)
Lemma scenario_binding_not_folded :
  ~ (forall framework,
       framework ∈ ["react"; "solid"; "vue"] ->
       Scenario.committed framework 5 = Some (VNum 10) /\
       Scenario.exposed framework 5 = Some (VNum 10)).
Proof.
  intros H. destruct (H "vue") as [_ Hvue].
  - apply list_elem_of_further, list_elem_of_further, list_elem_of_here.
  - vm_compute in Hvue. discriminate Hvue.
Qed.

(** C5, amended.  With each of the three variants, after [setValue(n)] the
    committed value, the one [get("counter")] returns, is the result of the
    beforeUpdate fold, [2 * n]: 10 for 5.  The adapter writes the caller's
    argument [n] itself to the framework state: the solid accessor and the
    vue reference show [n], and the react binding, whose [value] is a plain
    value, still shows the initial 0 while the state cell of [useState]
    holds [n]. *)
Theorem scenario_values (n : Z) :
  Scenario.committed "react" n = Some (VNum (2 * n)) /\
  Scenario.committed "solid" n = Some (VNum (2 * n)) /\
  Scenario.committed "vue" n = Some (VNum (2 * n)) /\
  Scenario.committed "vue" 5 = Some (VNum 10) /\
  Core.cell (Scenario.outcome "react" n).2 2 = Some (VNum n) /\
  Scenario.exposed "react" n = Some (VNum 0) /\
  Scenario.exposed "solid" n = Some (VNum n) /\
  Scenario.exposed "vue" n = Some (VNum n).
Proof. repeat split; vm_compute; reflexivity. Qed.

(** What the [value] of each binding is in the scenario: a number for
    react, a function for solid, an object for vue. *)
Lemma scenario_bindings :
  Scenario.bindingValue "react" 5 = Some (VNum 0) /\
  Scenario.bindingValue "solid" 5 = Some (VFun (Extern 3)) /\
  Scenario.bindingValue "vue" 5 = Some (VHost 2).
Proof. repeat split; vm_compute; reflexivity. Qed.

End ScenarioFacts.

#[local] Set Warnings "-clear-no-such-hyp".

(** ** More on the naming resolver *)

Section NamingExtras.

Lemma append_assoc (a b c : string) : (a +:+ b) +:+ c = a +:+ b +:+ c.
Proof.
  induction a as [|x a IH]; [reflexivity |].
  rewrite !app_cons. now rewrite IH.
Qed.

(** Hyphenation goes through concatenation: a name can be hyphenated piece
    by piece. *)
Theorem kebabCase_app (a b : string) :
  kebabCase (a +:+ b) = kebabCase a +:+ kebabCase b.
Proof.
  induction a as [|c a IH]; [reflexivity |].
  rewrite app_cons. cbn [kebabCase]. rewrite IH.
  destruct (Str.isAZ c); now rewrite !app_cons.
Qed.

Lemma kebabCase_size (s : string) :
  String.length (kebabCase s) = String.length s + Str.countUpper s.
Proof.
  induction s as [|c s IH]; [reflexivity |].
  cbn [kebabCase Str.countUpper]. destruct (Str.isAZ c); simpl; lia.
Qed.

(** The output is longer than the input by the number of capitals: one
    hyphen per capital and nothing else. *)
Theorem kebabCase_length (s : string) :
  String.length (kebabCase s) = String.length s + Str.countUpper s.
Proof. apply kebabCase_size. Qed.

Lemma countUpper_noUpper (s : string) :
  Str.countUpper s = 0 <-> Str.noUpper s = true.
Proof.
  induction s as [|c s IH]; [easy |].
  cbn [Str.countUpper Str.noUpper]. destruct (Str.isAZ c); simpl.
  - split; [lia | discriminate].
  - exact IH.
Qed.

(** The output never holds a capital, and the names that hyphenation leaves
    unchanged are exactly the names without capitals. *)
Theorem kebabCase_fixed (s : string) :
  Str.noUpper (kebabCase s) = true /\
  (kebabCase s = s <-> Str.noUpper s = true).
Proof.
  split; [apply kebabCase_noUpper |]. split.
  - intros H. apply countUpper_noUpper.
    pose proof (kebabCase_size s) as Hl. rewrite H in Hl. lia.
  - apply kebabCase_id.
Qed.

Lemma kebabCase_fixed_witness : kebabCase "use-counter" = "use-counter".
Proof. apply (proj2 (proj2 (kebabCase_fixed "use-counter"))). reflexivity. Defined.

Lemma toUpper_toLower (c : ascii) :
  Str.isAZ c = true -> Str.toUpperCase (Str.toLowerCase c) = c.
Proof.
  intros H. unfold Str.toLowerCase. rewrite H.
  unfold Str.isAZ in H. apply andb_true_iff in H as [H1 H2].
  apply Nat.leb_le in H1, H2.
  unfold Str.toUpperCase, Str.isaz. rewrite nat_ascii_embedding by lia.
  replace (97 <=? nat_of_ascii c + 32) with true
    by (symmetry; apply Nat.leb_le; lia).
  replace (nat_of_ascii c + 32 <=? 122) with true
    by (symmetry; apply Nat.leb_le; lia).
  cbn [andb]. replace (nat_of_ascii c + 32 - 32) with (nat_of_ascii c) by lia.
  apply ascii_nat_embedding.
Qed.

Lemma toLower_not_hyphen (c : ascii) :
  Str.isAZ c = true -> Ascii.eqb (Str.toLowerCase c) "-" = false.
Proof.
  intros H. apply Ascii.eqb_neq. intros Heq.
  pose proof (toLowerCase_not_AZ c H) as Hn.
  unfold Str.toLowerCase in Heq. rewrite H in Heq.
  apply (f_equal nat_of_ascii) in Heq.
  unfold Str.isAZ in H. apply andb_true_iff in H as [H1 H2].
  apply Nat.leb_le in H1, H2.
  rewrite nat_ascii_embedding in Heq by lia.
  change (nat_of_ascii "-") with 45 in Heq. lia.
Qed.

Lemma KebabToCamel_left_inverse (s : string) :
  Str.noHyphen s = true -> Alias.KebabToCamel (kebabCase s) = s.
Proof.
  induction s as [|c s IH]; [reflexivity |].
  cbn [Str.noHyphen kebabCase]. intros H.
  apply andb_true_iff in H as [Hc Hs]. apply negb_true_iff in Hc.
  destruct (Str.isAZ c) eqn:E.
  - cbn [Alias.KebabToCamel]. change (Ascii.eqb "-" "-") with true. cbv iota.
    rewrite (toLower_not_hyphen c E), IH by exact Hs.
    cbn [Alias.Capitalize]. now rewrite toUpper_toLower.
  - cbn [Alias.KebabToCamel]. rewrite Hc. now rewrite IH.
Qed.

(** The type [KebabToCamel] undoes [kebabCase] on every name that has no
    hyphen of its own. *)
Theorem KebabToCamel_kebabCase (s : string) :
  Str.noHyphen s = true -> Alias.KebabToCamel (kebabCase s) = s.
Proof. apply KebabToCamel_left_inverse. Qed.

Lemma KebabToCamel_kebabCase_witness :
  Alias.KebabToCamel (kebabCase "fooBarBAZ") = "fooBarBAZ".
Proof. apply (KebabToCamel_kebabCase "fooBarBAZ"). reflexivity. Defined.

(** Two different names without hyphens get different hyphenated forms. *)
Theorem kebabCase_injective (s t : string) :
  Str.noHyphen s = true -> Str.noHyphen t = true ->
  s <> t -> kebabCase s <> kebabCase t.
Proof.
  intros Hs Ht Hne H. apply Hne.
  apply (f_equal Alias.KebabToCamel) in H.
  now rewrite !KebabToCamel_left_inverse in H.
Qed.

Lemma kebabCase_injective_witness : kebabCase "userId" <> kebabCase "userid".
Proof.
  apply (kebabCase_injective "userId" "userid");
    [reflexivity | reflexivity | discriminate].
Defined.

(** The bare name is the name with at most a leading [use] and at most a
    trailing [Hook] taken away; nothing inside the name changes. *)
Theorem extractHookName_decompose (name : string) :
  exists p q,
    name = p +:+ extractHookName name +:+ q /\
    (p = "" \/ p = "use") /\ (q = "" \/ q = "Hook").
Proof.
  unfold extractHookName.
  assert (Hsuffix : forall r, exists q,
            r = replace_Hook_end r +:+ q /\ (q = "" \/ q = "Hook")).
  { intros r. destruct (Str.endsWith "Hook" r) eqn:E.
    - apply endsWith_spec in E as [m ->]. exists "Hook".
      rewrite replace_Hook_end_app. auto.
    - exists "". rewrite replace_Hook_end_none by now apply endsWith_false.
      split; [| now left]. clear. induction r as [|c r IH]; [reflexivity |].
      rewrite app_cons. now rewrite <- IH. }
  destruct (Str.startsWith "use" name) eqn:E.
  - apply startsWith_spec in E as [r ->]. rewrite replace_use_start_app.
    destruct (Hsuffix r) as (q & Hq & Hq'). exists "use", q.
    split; [| auto]. now rewrite <- Hq.
  - rewrite replace_use_start_none by now apply startsWith_false.
    destruct (Hsuffix name) as (q & Hq & Hq'). exists "", q.
    split; [| auto]. exact Hq.
Qed.

(** A bare name and its three decorated spellings all get the same id. *)
Theorem reactiveId_spellings (m : string) :
  Str.startsWith "use" m = false -> Str.endsWith "Hook" m = false ->
  reactiveId ("use" +:+ m) = reactiveId m /\
  reactiveId (m +:+ "Hook") = reactiveId m /\
  reactiveId ("use" +:+ m +:+ "Hook") = reactiveId m.
Proof.
  intros Hp Hs. unfold reactiveId, extractHookName.
  rewrite !replace_use_start_app.
  rewrite (replace_use_start_none m) by now apply startsWith_false.
  rewrite (replace_use_start_none (m +:+ "Hook"))
    by (apply startsWith_false; now rewrite startsWith_use_Hook).
  rewrite replace_Hook_end_app.
  now rewrite replace_Hook_end_none by now apply endsWith_false.
Qed.

Lemma reactiveId_spellings_witness :
  reactiveId "useCounter" = reactiveId "Counter" /\
  reactiveId "CounterHook" = reactiveId "Counter" /\
  reactiveId "useCounterHook" = reactiveId "Counter".
Proof. apply (reactiveId_spellings "Counter"); reflexivity. Defined.

Lemma ExtractHookName_no_prefix (T : string) :
  Str.startsWith "use" T = false ->
  Enhanced.ExtractHookName T = replace_Hook_end T.
Proof.
  intros H. apply startsWith_false in H. unfold Enhanced.ExtractHookName.
  repeat (match goal with
          | |- context [match ?x with _ => _ end] => destruct x; try reflexivity
          end).
  exfalso. apply H. now eexists.
Qed.

(** The type [ExtractHookName] and the function [extractHookName] agree on
    every name without the prefix [use]; on a name with the prefix the type
    stops after removing it, so a trailing [Hook] that the function removes
    stays. *)
Theorem ExtractHookName_vs_function (m : string) :
  Enhanced.ExtractHookName ("use" +:+ m) = m /\
  extractHookName ("use" +:+ m) = replace_Hook_end m /\
  Enhanced.ExtractHookName ("use" +:+ m +:+ "Hook") =
    extractHookName ("use" +:+ m +:+ "Hook") +:+ "Hook" /\
  (Str.startsWith "use" m = false ->
   Enhanced.ExtractHookName m = extractHookName m).
Proof.
  split; [reflexivity |]. split; [reflexivity |]. split.
  - unfold extractHookName. rewrite replace_use_start_app.
    now rewrite replace_Hook_end_app.
  - intros H. rewrite ExtractHookName_no_prefix by exact H.
    unfold extractHookName.
    now rewrite replace_use_start_none by now apply startsWith_false.
Qed.

Lemma ExtractHookName_vs_function_witness :
  Enhanced.ExtractHookName "CounterHook" = extractHookName "CounterHook".
Proof.
  apply (proj2 (proj2 (proj2 (ExtractHookName_vs_function "CounterHook")))).
  reflexivity.
Defined.

Lemma AZ_not_az (c : ascii) : Str.isAZ c = true -> Str.isaz c = false.
Proof.
  unfold Str.isAZ, Str.isaz. intros H.
  apply andb_true_iff in H as [H1 H2]. apply Nat.leb_le in H1, H2.
  apply andb_false_iff. left. apply Nat.leb_gt. lia.
Qed.

Lemma Capitalize_fixed (c : ascii) :
  String.eqb (Alias.Capitalize (String c "")) (String c "")
  = negb (Str.isaz c).
Proof.
  cbn [Alias.Capitalize]. unfold Str.toUpperCase.
  destruct (Str.isaz c) eqn:E; cbn [negb].
  - apply String.eqb_neq. intros [= Heq].
    apply (f_equal nat_of_ascii) in Heq.
    unfold Str.isaz in E. apply andb_true_iff in E as [H1 H2].
    apply Nat.leb_le in H1, H2.
    rewrite nat_ascii_embedding in Heq by lia. lia.
  - apply String.eqb_refl.
Qed.

Lemma CamelToKebab_cons (c : ascii) (r : string) :
  Alias.CamelToKebab (String c r) =
  (if Str.isaz c then "" else "-")
  +:+ String (Str.toLowerCase c) (Alias.CamelToKebab r).
Proof.
  cbn [Alias.CamelToKebab Alias.Lowercase]. rewrite Capitalize_fixed.
  now destruct (Str.isaz c).
Qed.

Lemma CamelToKebab_length (s : string) :
  String.length (Alias.CamelToKebab s)
  = String.length s + Str.countNotLower s.
Proof.
  induction s as [|c s IH]; [reflexivity |].
  rewrite CamelToKebab_cons. cbn [Str.countNotLower].
  destruct (Str.isaz c); rewrite ?app_cons, ?app_nil_l; simpl; lia.
Qed.

Lemma countUpper_le_countNotLower (s : string) :
  Str.countUpper s <= Str.countNotLower s /\
  (Str.countUpper s = Str.countNotLower s -> Str.allLetters s = true).
Proof.
  induction s as [|c s [IH1 IH2]]; [easy |].
  cbn [Str.countUpper Str.countNotLower Str.allLetters].
  destruct (Str.isAZ c) eqn:E.
  - rewrite (AZ_not_az c E). cbn [orb andb]. split; [lia |].
    intros H. apply IH2. lia.
  - destruct (Str.isaz c); cbn [orb andb]; split; try lia.
    intros H. apply IH2. lia.
Qed.

Lemma CamelToKebab_letters (s : string) :
  Str.allLetters s = true -> Alias.CamelToKebab s = kebabCase s.
Proof.
  induction s as [|c s IH]; [reflexivity |].
  cbn [Str.allLetters]. intros H. apply andb_true_iff in H as [Hc Hs].
  rewrite CamelToKebab_cons, IH by exact Hs. cbn [kebabCase].
  destruct (Str.isAZ c) eqn:E.
  - now rewrite (AZ_not_az c E).
  - cbn [orb] in Hc. rewrite Hc. unfold Str.toLowerCase. now rewrite E.
Qed.

(** The declared type of the id, [CamelToKebab], and the function that
    computes the id, [kebabCase], give the same string exactly for the names
    made of letters only: the type also puts a hyphen before every digit
    and every other character that has no upper case. *)
Theorem CamelToKebab_vs_kebabCase (s : string) :
  Str.allAscii s = true ->
  (Alias.CamelToKebab s = kebabCase s <-> Str.allLetters s = true).
Proof.
  intros _. split; [| apply CamelToKebab_letters].
  intros H. apply countUpper_le_countNotLower.
  apply (f_equal String.length) in H.
  rewrite CamelToKebab_length, kebabCase_size in H. lia.
Qed.

Lemma CamelToKebab_vs_kebabCase_witness :
  Alias.CamelToKebab "fooBar" = kebabCase "fooBar" /\
  Alias.CamelToKebab "step2" <> kebabCase "step2".
Proof.
  split.
  - apply (proj2 (CamelToKebab_vs_kebabCase "fooBar" eq_refl)). reflexivity.
  - intros H.
    apply (proj1 (CamelToKebab_vs_kebabCase "step2" eq_refl)) in H.
    discriminate H.
Defined.

End NamingExtras.

(** ** More on the interceptors and the plugins *)

Section InterceptorExtras.

Lemma frameworkBeforeCreate_eq (fw : Framework) (config : JsObj) :
  V3.frameworkBeforeCreate fw config =
  <["meta" := VObj (<["framework" := VStr (Framework_name fw)]>
                      (Js.meta config))]> config.
Proof. reflexivity. Qed.

Lemma namingBeforeCreate_eq (r p k : string) (config : JsObj) :
  Enhanced.namingBeforeCreate r p k config =
  <["meta" := VObj (<["kebabName" := VStr k]>
                      (<["processedName" := VStr p]>
                         (<["hookName" := VStr r]> (Js.meta config))))]>
    config.
Proof. reflexivity. Qed.

(** Running the framework interceptor twice, for the same or for another
    framework, is running the last one alone. *)
Theorem frameworkBeforeCreate_last_wins (fw1 fw2 : Framework)
    (config : JsObj) :
  V3.frameworkBeforeCreate fw2 (V3.frameworkBeforeCreate fw1 config) =
  V3.frameworkBeforeCreate fw2 config.
Proof.
  rewrite (frameworkBeforeCreate_eq fw2 (V3.frameworkBeforeCreate fw1 config)).
  rewrite frameworkBeforeCreate_meta, insert_insert_eq.
  rewrite (frameworkBeforeCreate_eq fw1 config), insert_insert_eq.
  reflexivity.
Qed.

(** The same for the naming interceptor: a second run replaces the three
    names of the first. *)
Theorem namingBeforeCreate_last_wins (r1 p1 k1 r2 p2 k2 : string)
    (config : JsObj) :
  Enhanced.namingBeforeCreate r2 p2 k2
    (Enhanced.namingBeforeCreate r1 p1 k1 config) =
  Enhanced.namingBeforeCreate r2 p2 k2 config.
Proof.
  rewrite (namingBeforeCreate_eq r2 p2 k2
             (Enhanced.namingBeforeCreate r1 p1 k1 config)).
  rewrite namingBeforeCreate_meta.
  rewrite (namingBeforeCreate_eq r1 p1 k1 config), insert_insert_eq.
  rewrite namingBeforeCreate_eq. do 2 f_equal.
  apply map_eq. intros i.
  rewrite !lookup_insert. repeat case_decide; congruence.
Qed.

(** The two interceptors write different keys of [meta], so the order in
    which a pipeline runs them does not matter. *)
Theorem beforeCreate_commute (fw : Framework) (r p k : string)
    (config : JsObj) :
  Enhanced.namingBeforeCreate r p k (V3.frameworkBeforeCreate fw config) =
  V3.frameworkBeforeCreate fw (Enhanced.namingBeforeCreate r p k config).
Proof.
  rewrite (namingBeforeCreate_eq r p k (V3.frameworkBeforeCreate fw config)).
  rewrite (frameworkBeforeCreate_eq fw
             (Enhanced.namingBeforeCreate r p k config)).
  rewrite frameworkBeforeCreate_meta, namingBeforeCreate_meta.
  rewrite frameworkBeforeCreate_eq, namingBeforeCreate_eq.
  rewrite !insert_insert_eq. do 2 f_equal.
  apply map_eq. intros i.
  rewrite !lookup_insert. repeat case_decide; congruence.
Qed.

(** On a config without [meta], or whose [meta] is [undefined] or [null],
    the interceptors create [meta] with their own keys only; in every case
    the result has a [meta] and otherwise the properties of the input. *)
Theorem beforeCreate_missing_meta (fw : Framework) (r p k : string)
    (config : JsObj) :
  (config !! "meta" = None \/ config !! "meta" = Some VUndef \/
   config !! "meta" = Some VNull ->
   V3.frameworkBeforeCreate fw config !! "meta" =
     Some (VObj {["framework" := VStr (Framework_name fw)]}) /\
   Enhanced.namingBeforeCreate r p k config !! "meta" =
     Some (VObj (<["kebabName" := VStr k]>
                   (<["processedName" := VStr p]>
                      {["hookName" := VStr r]})))) /\
  dom (V3.frameworkBeforeCreate fw config) = {["meta"]} ∪ dom config /\
  dom (Enhanced.namingBeforeCreate r p k config) = {["meta"]} ∪ dom config.
Proof.
  split; [| split].
  - intros H.
    assert (Hm : Js.spread (Js.prop "meta" config) = ∅).
    { unfold Js.prop. destruct H as [-> | [-> | ->]]; reflexivity. }
    unfold V3.frameworkBeforeCreate, Enhanced.namingBeforeCreate, Lit.over.
    cbn [fold_left fst snd]. rewrite !lookup_insert_eq, Hm.
    split; reflexivity.
  - unfold V3.frameworkBeforeCreate, Lit.over. cbn [fold_left fst snd].
    apply dom_insert_L.
  - unfold Enhanced.namingBeforeCreate, Lit.over. cbn [fold_left fst snd].
    apply dom_insert_L.
Qed.

Lemma beforeCreate_missing_meta_witness :
  V3.frameworkBeforeCreate vue (Lit.over ∅ [("id", VStr "a")]) !! "meta" =
  Some (VObj {["framework" := VStr "vue"]}).
Proof.
  refine (proj1 (proj1 (beforeCreate_missing_meta vue "" "" ""
                          (Lit.over ∅ [("id", VStr "a")])) _)).
  left. reflexivity.
Defined.

Lemma Framework_name_inj (a b : Framework) :
  Framework_name a = Framework_name b -> a = b.
Proof. destruct a, b; simpl; intros H; try reflexivity; discriminate H. Qed.

Lemma createFrameworkPlugin_name (fw : Framework) :
  Js.get "name" (V3.createFrameworkPlugin fw) =
  VStr (Framework_name fw +:+ "-adapter").
Proof.
  unfold Js.get, Js.prop, V3.createFrameworkPlugin, Lit.obj, Lit.over.
  cbn [fold_left fst snd Js.spread].
  rewrite lookup_insert_ne by discriminate. now rewrite lookup_insert_eq.
Qed.

Lemma adapter_lifecyclePlugin_name (config : JsObj) (suffix : JsVal) :
  Js.get "name" (Adapter.lifecyclePlugin config suffix) =
  VStr ("lifecycle-" +:+ Js.template suffix).
Proof.
  unfold Js.get, Js.prop, Adapter.lifecyclePlugin, Lit.obj, Lit.over.
  cbn [fold_left fst snd Js.spread].
  rewrite !lookup_insert_ne by discriminate. now rewrite lookup_insert_eq.
Qed.

(** The framework plugins of different frameworks have different names, and
    the name of a framework plugin ([react-adapter], ...) is never the name
    of the lifecycle plugin that [useReactive] builds ([lifecycle-...]). *)
Theorem createFrameworkPlugin_names (fw fw' : Framework) (config : JsObj)
    (suffix : JsVal) :
  (fw <> fw' ->
   Js.get "name" (V3.createFrameworkPlugin fw) <>
   Js.get "name" (V3.createFrameworkPlugin fw')) /\
  Js.get "name" (V3.createFrameworkPlugin fw) <>
    Js.get "name" (Adapter.lifecyclePlugin config suffix).
Proof.
  rewrite !createFrameworkPlugin_name, adapter_lifecyclePlugin_name.
  split.
  - intros Hne [= H]. apply Hne, Framework_name_inj.
    destruct fw, fw'; try reflexivity; discriminate H.
  - destruct fw; intros [= H]; discriminate H.
Qed.

Lemma createFrameworkPlugin_names_witness :
  Js.get "name" (V3.createFrameworkPlugin react) <>
  Js.get "name" (V3.createFrameworkPlugin solid).
Proof.
  apply (proj1 (createFrameworkPlugin_names react solid ∅ VUndef)).
  discriminate.
Defined.

End InterceptorExtras.

(** ** More on [useInferredHook] *)

Section InferredExtras.

Context {W : Type} (h : Handler W).

Ltac answer :=
  match goal with
  | |- context [h ?c ?x] => destruct (h c x) as [[?|?] ?]
  end.

Ltac steps :=
  cbn [mbind mret prog_bind prog_ret bind call trace run].

(** [options] is spread last, so each of its properties wins: an [id], a
    [type] or an [initialValue] in [options] replaces the derived id, the
    [state] default and the hook's argument, whatever value it holds, and
    every other property of [options] reaches [create] as it is.  The
    fallback of [options.type || "state"] only shows when [options] has no
    [type] property at all. *)
Theorem createConfig_options_win (rid : string) (initialValue : JsVal)
    (options : JsObj) :
  let request := V3.createConfig rid initialValue options in
  request !! "id" = Some (default (VStr rid) (options !! "id")) /\
  request !! "type" = Some (default (VStr "state") (options !! "type")) /\
  request !! "initialValue" =
    Some (default initialValue (options !! "initialValue")) /\
  (forall k, k <> "id" -> k <> "type" -> k <> "initialValue" ->
     request !! k = options !! k) /\
  dom request = {["id"; "type"; "initialValue"]} ∪ dom options.
Proof.
  cbn zeta. unfold V3.createConfig.
  split; [| split; [| split; [| split]]].
  - rewrite lookup_union. destruct (options !! "id"); reflexivity.
  - rewrite lookup_union. unfold Js.prop.
    destruct (options !! "type"); reflexivity.
  - rewrite lookup_union. destruct (options !! "initialValue"); reflexivity.
  - intros k H1 H2 H3. rewrite lookup_union.
    unfold Lit.over. cbn [fold_left fst snd].
    rewrite !lookup_insert_ne by congruence. rewrite lookup_empty.
    now destruct (options !! k).
  - rewrite dom_union_L. unfold Lit.over. cbn [fold_left fst snd].
    rewrite !dom_insert_L, dom_empty_L. set_solver.
Qed.

Lemma createConfig_options_win_witness :
  V3.createConfig "-counter" (VNum 0)
    (Lit.over ∅ [("type", VStr ""); ("meta", VNull)]) !! "meta"
  = Some VNull.
Proof.
  refine (proj1 (proj2 (proj2 (proj2
            (createConfig_options_win "-counter" (VNum 0)
               (Lit.over ∅ [("type", VStr ""); ("meta", VNull)])))))
            "meta" _ _ _); discriminate.
Defined.

(** Every call of the hook constructs a Component System of its own, with
    the framework plugin of the context as its only plugin, and creates on
    the system the constructor returned; when the constructor throws,
    nothing is created. *)
Theorem useInferredHook_calls (w : W) (name : string) (context : HookContext)
    (initialValue : JsVal) (options : JsObj) :
  let construct :=
    NewComponentSystem
      (Lit.obj [("plugins",
                 VArr [V3.createFrameworkPlugin (framework context)])]) in
  let t := trace h (V3.useInferredHook name context initialValue options) w in
  (exists e, t = [(construct, inr e)]) \/
  (exists system answer,
     t = [(construct, inl system);
          (SystemCreate system
             (V3.createConfig (reactiveId name) initialValue options),
           answer)]).
Proof.
  cbn zeta. unfold V3.useInferredHook. steps.
  answer; steps; [| left; eauto].
  answer; steps; right; eauto.
Qed.

(** What the hook returns: the promise that [create] answered, under
    [reactive], and the framework of the context. *)
Theorem useInferredHook_result (w w' : W) (name : string)
    (context : HookContext) (initialValue : JsVal) (options : JsObj)
    (result : JsVal) :
  run h (V3.useInferredHook name context initialValue options) w
    = (inl result, w') ->
  exists system,
    (SystemCreate system
       (V3.createConfig (reactiveId name) initialValue options),
     inl (Js.get "reactive" result))
      ∈ trace h (V3.useInferredHook name context initialValue options) w /\
    Js.get "framework" result = VStr (Framework_name (framework context)) /\
    Js.get "filename" (Js.get "context" result) = VStr (filename context).
Proof.
  unfold V3.useInferredHook. steps.
  answer; steps; [| discriminate].
  answer; steps; [| discriminate].
  intros [= <- _]. eexists. split; [| split; reflexivity].
  apply list_elem_of_further, list_elem_of_here.
Qed.

(** The example components.  The Solid one cannot be told from the React
    one by the Component System: its file name [Counter.solid.tsx] is
    inferred as react and its hook name [useCounterHook] gives the id of
    [useCounter], so both make the same calls and return the same value in
    every environment, with the react plugin and the id [-counter].  The
    Vue one constructs its system with the vue plugin and asks for the id
    [-counter-state]. *)
Theorem example_components (w : W) :
  trace h V3.SolidCounter w = trace h V3.Counter w /\
  run h V3.SolidCounter w = run h V3.Counter w /\
  (exists answer,
     head (trace h V3.Counter w) =
     Some (NewComponentSystem
             (Lit.obj [("plugins", VArr [V3.createFrameworkPlugin react])]),
           answer)) /\
  createRequests h V3.Counter w ⊆ [V3.createConfig "-counter" (VNum 0) ∅] /\
  (exists answer,
     head (trace h V3.VueCounter_setup w) =
     Some (NewComponentSystem
             (Lit.obj [("plugins", VArr [V3.createFrameworkPlugin vue])]),
           answer)) /\
  createRequests h V3.VueCounter_setup w
    ⊆ [V3.createConfig "-counter-state" (VNum 0) ∅].
Proof.
  unfold V3.SolidCounter, V3.Counter, V3.VueCounter_setup, V3.useInferredHook,
    createRequests.
  change (framework (inferHookContext "Counter.solid.tsx")) with react.
  change (framework (inferHookContext "Counter.tsx")) with react.
  change (framework (inferHookContext "Counter.vue")) with vue.
  change (kebabCase (extractHookName "useCounterHook")) with "-counter".
  change (kebabCase (extractHookName "useCounter")) with "-counter".
  change (kebabCase (extractHookName "useCounterState"))
    with "-counter-state".
  steps.
  split; [| split; [| split; [| split; [| split]]]].
  - answer; steps; [answer; steps |]; reflexivity.
  - answer; steps; [answer; steps |]; reflexivity.
  - answer; steps; eexists; reflexivity.
  - answer; steps; [answer; steps |]; cbn; set_solver.
  - answer; steps; eexists; reflexivity.
  - answer; steps; [answer; steps |]; cbn; set_solver.
Qed.

End InferredExtras.

Lemma useInferredHook_result_witness :
  exists system,
    (SystemCreate system
       (V3.createConfig (reactiveId "useCounter") (VNum 0) ∅),
     inl (VHost 4))
      ∈ trace Core.host
          (V3.useInferredHook "useCounter" (inferHookContext "Counter.tsx")
             (VNum 0) ∅)
          Scenario.world0.
Proof.
  destruct (useInferredHook_result Core.host Scenario.world0
              (run Core.host
                 (V3.useInferredHook "useCounter"
                    (inferHookContext "Counter.tsx") (VNum 0) ∅)
                 Scenario.world0).2
              "useCounter" (inferHookContext "Counter.tsx") (VNum 0) ∅
              (Lit.obj [("reactive", VHost 4);
                        ("framework", VStr "react");
                        ("context",
                         V3.HookContext_val
                           (inferHookContext "Counter.tsx"))]))
    as (system & Hin & _).
  - vm_compute. reflexivity.
  - exists system. exact Hin.
Defined.

(** ** More on [useReactive] and [setValue] *)

Section AdapterExtras.

Context {W : Type} (h : Handler W).

Ltac answer :=
  match goal with
  | |- context [h ?c ?x] => destruct (h c x) as [[?|?] ?]
  end.

Ltac steps :=
  cbn [mbind mret prog_bind prog_ret bind call trace run Adapter.setup
       Adapter.cleanup Adapter.react_adapter Adapter.solid_adapter
       Adapter.vue_adapter Adapter.adapterSetup Adapter.adapterCleanup
       Adapter.awaitSet Adapter.setValueBody].

(** All runs of [useReactive], one goal for each way the environment can
    answer. *)
Ltac explore framework config :=
  unfold Adapter.useReactive, Adapter.frameworkAdapters, Adapter.binding;
  destruct (Js.truthy (Adapter.id config)) eqn:?;
  destruct (Js.isNull (Adapter.lifecycle config));
  destruct (String.eqb framework "react");
  try destruct (String.eqb framework "solid");
  try destruct (String.eqb framework "vue");
  steps; repeat (answer; steps).

(** The request of [useReactive] has exactly the five properties [id],
    [type], [initialValue], [dependencies] and [plugins], also when the
    caller gave no [id]; [type] and [dependencies] default to [state] and
    the empty list when the caller's are absent or [undefined], and only
    then.  Any other property of the caller's config, such as [meta] or
    [plugins], has no effect on the request. *)
Theorem adapter_request_fields (config : JsObj) (suffix : JsVal) :
  let request := Adapter.createConfig config suffix in
  dom request = {["id"; "type"; "initialValue"; "dependencies"; "plugins"]} /\
  request !! "id" = Some (Js.prop "id" config) /\
  request !! "type" =
    Some (match Js.prop "type" config with
          | VUndef => VStr "state"
          | v => v
          end) /\
  request !! "dependencies" =
    Some (match Js.prop "dependencies" config with
          | VUndef => VArr []
          | v => v
          end) /\
  (forall k v,
     k <> "id" -> k <> "type" -> k <> "initialValue" -> k <> "lifecycle" ->
     k <> "dependencies" ->
     Adapter.createConfig (<[k := v]> config) suffix = request).
Proof.
  cbn zeta. split; [| split; [| split; [| split]]].
  - unfold Adapter.createConfig, Lit.over. cbn [fold_left fst snd].
    rewrite !dom_insert_L, dom_empty_L. set_solver.
  - unfold Adapter.createConfig, Lit.over. cbn [fold_left fst snd].
    rewrite !lookup_insert_ne by discriminate. apply lookup_insert_eq.
  - unfold Adapter.createConfig, Lit.over. cbn [fold_left fst snd].
    rewrite !lookup_insert_ne by discriminate. rewrite lookup_insert_eq.
    unfold Adapter.type, Js.withDefault.
    now destruct (Js.prop "type" config).
  - unfold Adapter.createConfig, Lit.over. cbn [fold_left fst snd].
    rewrite !lookup_insert_ne by discriminate. rewrite lookup_insert_eq.
    unfold Adapter.dependencies, Js.withDefault.
    now destruct (Js.prop "dependencies" config).
  - intros k v H1 H2 H3 H4 H5.
    unfold Adapter.createConfig, Adapter.lifecyclePlugin, Adapter.id,
      Adapter.type, Adapter.initialValue, Adapter.dependencies,
      Adapter.lifecycle, Js.prop.
    now rewrite !lookup_insert_ne by congruence.
Qed.

Lemma adapter_request_fields_witness :
  Adapter.createConfig
    (<["meta" := VNull]> (Lit.over ∅ [("initialValue", VNum 0)])) VUndef =
  Adapter.createConfig (Lit.over ∅ [("initialValue", VNum 0)]) VUndef.
Proof.
  refine (proj2 (proj2 (proj2 (proj2
            (adapter_request_fields (Lit.over ∅ [("initialValue", VNum 0)])
               VUndef)))) "meta" VNull _ _ _ _ _); discriminate.
Defined.

Lemma adapter_plugin_name (config : JsObj) (suffix : JsVal) :
  Js.pluginNames (Js.prop "plugins" (Adapter.createConfig config suffix)) =
  [VStr ("lifecycle-" +:+ Js.template suffix)].
Proof.
  rewrite adapter_createConfig_plugins. cbn [Js.pluginNames map].
  unfold Js.get, Js.prop, Adapter.lifecyclePlugin, Lit.obj, Lit.over.
  cbn [fold_left fst snd Js.spread].
  rewrite !lookup_insert_ne by discriminate. now rewrite lookup_insert_eq.
Qed.

(** With a truthy [id] the hook never asks for a random UUID, and when the
    [id] is a string, as declared, it names its plugin [lifecycle-<id>].
    Without a truthy [id] its first call is [crypto.randomUUID()], and a
    request that follows names the plugin after the string that call
    returned. *)
Theorem useReactive_plugin_suffix (w : W) (system : JsVal)
    (framework : string) (config : JsObj) :
  let t := trace h (Adapter.useReactive system framework config) w in
  (Js.truthy (Adapter.id config) = true ->
   (forall e, e ∈ t -> e.1 <> RandomUUID) /\
   (forall request s,
      Adapter.id config = VStr s ->
      request ∈ createRequests h
                  (Adapter.useReactive system framework config) w ->
      Js.pluginNames (Js.prop "plugins" request) =
      [VStr ("lifecycle-" +:+ s)])) /\
  (Js.truthy (Adapter.id config) = false ->
   (exists answer, head t = Some (RandomUUID, answer)) /\
   (forall request uuid,
      head t = Some (RandomUUID, inl (VStr uuid)) ->
      request ∈ createRequests h
                  (Adapter.useReactive system framework config) w ->
      Js.pluginNames (Js.prop "plugins" request) =
      [VStr ("lifecycle-" +:+ uuid)])).
Proof.
  cbn zeta. unfold createRequests.
  explore framework config; (split; [intros Ht | intros Hf]);
    try discriminate; (split; [| intros request s Hs Hin]);
    try (eexists; reflexivity);
    try (intros x Hx;
         repeat (apply elem_of_cons in Hx as [-> | Hx]; [discriminate |]);
         now inversion Hx);
    cbn in Hin;
    try (now inversion Hin);
    apply list_elem_of_singleton in Hin as ->;
    (etransitivity; [apply adapter_plugin_name |]);
    first [ now rewrite Hs | now injection Hs as -> ].
Qed.

(** A hook for a framework without adapter creates nothing and sets up no
    framework state: it throws before either, and its only possible call
    is the one for a random UUID. *)
Theorem useReactive_unknown_creates_nothing (w : W) (system : JsVal)
    (framework : string) (config : JsObj) :
  Adapter.frameworkAdapters framework = None ->
  createRequests h (Adapter.useReactive system framework config) w = [] /\
  (forall e, e ∈ trace h (Adapter.useReactive system framework config) w ->
     e.1 = RandomUUID).
Proof.
  intros Hnone. unfold createRequests, Adapter.useReactive.
  rewrite Hnone.
  destruct (Js.truthy (Adapter.id config));
    destruct (Js.isNull (Adapter.lifecycle config));
    steps; repeat (answer; steps);
    (split; [reflexivity |]); intros x Hx;
    repeat (apply elem_of_cons in Hx as [-> | Hx]; [reflexivity |]);
    inversion Hx.
Qed.

(** The framework state is set up before the Reactive is created: [create]
    is the last call of the hook and the call just before it is the
    adapter's [setup] with the caller's [initialValue], answered without
    error.  When [setup] throws, nothing is created. *)
Theorem useReactive_setup_then_create (w : W) (system : JsVal)
    (framework : string) (config : JsObj)
    (pre post : list (Call * (JsVal + Error))) (sys : JsVal)
    (request : JsObj) (answer : JsVal + Error) :
  trace h (Adapter.useReactive system framework config) w
    = pre ++ (SystemCreate sys request, answer) :: post ->
  post = [] /\ sys = system /\
  exists pre' c state,
    pre = pre' ++ [(c, inl state)] /\
    c ∈ [UseState (Adapter.initialValue config);
         CreateSignal (Adapter.initialValue config);
         VueRef (Adapter.initialValue config)].
Proof.
  explore framework config; intros Ht;
    destruct pre as [|x1 [|x2 [|x3 pre]]]; cbn in Ht;
    try discriminate Ht;
    try (injection Ht as Ht1 Ht2; try discriminate Ht1;
         try (destruct pre; discriminate Ht2));
    simplify_eq;
    try (destruct pre; discriminate);
    (split; [reflexivity |]); (split; [reflexivity |]);
    first [ exists []; do 2 eexists; split; [reflexivity | set_solver]
          | eexists [_]; do 2 eexists; split; [reflexivity | set_solver] ].
Qed.

(** When a [setValue] returns, its last call was the write of the
    framework state, and what it wrote is the caller's [newValue] itself:
    the argument of [setState], of the signal's setter, or the new [value]
    of the reference.  When it throws, the error is the one the last call
    it made threw. *)
Theorem setValue_outcome (w : W) (newValue : JsVal) :
  (forall state reactive result w',
     run h (Adapter.setValueBody (SetValueReact state reactive) newValue) w
       = (inl result, w') ->
     result = VUndef /\
     exists answer,
       last (trace h (Adapter.setValueBody (SetValueReact state reactive)
                        newValue) w)
       = Some (Invoke (Js.get "setState" state) [newValue], inl answer)) /\
  (forall setValue reactive result w',
     run h (Adapter.setValueBody (SetValueSolid setValue reactive) newValue) w
       = (inl result, w') ->
     result = VUndef /\
     exists answer,
       last (trace h (Adapter.setValueBody (SetValueSolid setValue reactive)
                        newValue) w)
       = Some (Invoke setValue [newValue], inl answer)) /\
  (forall state reactive result w',
     run h (Adapter.setValueBody (SetValueVue state reactive) newValue) w
       = (inl result, w') ->
     result = VUndef /\
     exists answer,
       last (trace h (Adapter.setValueBody (SetValueVue state reactive)
                        newValue) w)
       = Some (Assign state "value" newValue, inl answer)) /\
  (forall c e w',
     run h (Adapter.setValueBody c newValue) w = (inr e, w') ->
     exists failed,
       last (trace h (Adapter.setValueBody c newValue) w)
       = Some (failed, inr e)).
Proof.
  split; [| split; [| split]].
  - intros state reactive result w'. steps. repeat (answer; steps);
      intros [= <- _]; split; [reflexivity | eexists; reflexivity].
  - intros setValue reactive result w'. steps. repeat (answer; steps);
      intros [= <- _]; split; [reflexivity | eexists; reflexivity].
  - intros state reactive result w'. steps. repeat (answer; steps);
      intros [= <- _]; split; [reflexivity | eexists; reflexivity].
  - intros c e w'. destruct c; steps; try discriminate;
      repeat (answer; steps); intros [= <- _]; eexists; reflexivity.
Qed.

End AdapterExtras.

Lemma useReactive_plugin_suffix_witness :
  Js.pluginNames
    (Js.prop "plugins" (Adapter.createConfig Scenario.config (VStr "counter")))
  = [VStr "lifecycle-counter"].
Proof.
  refine (proj2 (proj1 (useReactive_plugin_suffix Core.host Scenario.world0
                          (VHost 0) "vue" Scenario.config) _)
            _ "counter" _ _).
  - reflexivity.
  - reflexivity.
  - vm_compute. apply list_elem_of_here.
Defined.

Lemma useReactive_unknown_creates_nothing_witness :
  createRequests Core.host
    (Adapter.useReactive (VHost 0) "svelte" Scenario.config) Scenario.world0
  = [].
Proof.
  apply (useReactive_unknown_creates_nothing Core.host Scenario.world0
           (VHost 0) "svelte" Scenario.config).
  reflexivity.
Defined.

Lemma useReactive_setup_then_create_witness :
  exists pre' c state,
    ([(VueRef (VNum 0), inl (VHost 2))] : list (Call * (JsVal + Error))) =
      pre' ++ [(c, inl state)] /\
    c ∈ [UseState (Adapter.initialValue Scenario.config);
         CreateSignal (Adapter.initialValue Scenario.config);
         VueRef (Adapter.initialValue Scenario.config)].
Proof.
  refine (proj2 (proj2 (useReactive_setup_then_create Core.host
                          Scenario.world0 (VHost 0) "vue" Scenario.config
                          [(VueRef (VNum 0), inl (VHost 2))] []
                          (VHost 0)
                          (Adapter.createConfig Scenario.config
                             (VStr "counter"))
                          (inl (VHost 4)) _))).
  vm_compute. reflexivity.
Defined.

Lemma setValue_outcome_witness :
  exists answer,
    last (trace Core.host
            (Adapter.setValueBody (SetValueVue (VHost 2) (VHost 4)) (VNum 5))
            (run Core.host
               (Adapter.useReactive (VHost 0) "vue" Scenario.config)
               Scenario.world0).2)
    = Some (Assign (VHost 2) "value" (VNum 5), inl answer).
Proof.
  refine (proj2 (proj1 (proj2 (proj2
            (setValue_outcome Core.host
               (run Core.host
                  (Adapter.useReactive (VHost 0) "vue" Scenario.config)
                  Scenario.world0).2 (VNum 5))))
            (VHost 2) (VHost 4) VUndef
            (run Core.host
               (Adapter.setValueBody (SetValueVue (VHost 2) (VHost 4))
                  (VNum 5))
               (run Core.host
                  (Adapter.useReactive (VHost 0) "vue" Scenario.config)
                  Scenario.world0).2).2 _)).
  vm_compute. reflexivity.
Defined.
